(** * The chat hub: a model of [server] in main.go and legacy.go

    The hub is the goroutine [server(messages chan Message)]: it owns the
    two maps [clients] and [bannedMfs], pulls one [Message] at a time from
    the channel and reacts to it.  One iteration of its [for] loop is the
    function [server_step] below; the loop itself, run over a finite prefix
    of the channel, is [server].

    The two source files are two variants of the same program.  They differ
    only in the display name: legacy.go carries a [Name *string] in
    [Message] and [Client], dereferences it in two log lines and prefixes
    the broadcast payload with it.  The variant is a parameter of the
    model. *)

From Stdlib Require Import ZArith Lia Ascii String.
From stdpp Require Import gmap strings list fin_maps pretty.

Open Scope Z_scope.

(** ** The pieces of the Go runtime the hub relies on *)

Module Go.

(** [int], taken at 64 bits, its width on amd64 and arm64; [x++] wraps
    around. *)
Definition int_min : Z := - 2 ^ 63.
Definition int_max : Z := 2 ^ 63 - 1.
Definition int_wrap (z : Z) : Z := (z - int_min) mod 2 ^ 64 + int_min.

(** [time.Time] as a reading of the clock in nanoseconds and
    [time.Duration] as an [int64] count of nanoseconds. *)
Definition Time := Z.
Definition Duration := Z.
Definition Second : Duration := 1000000000.
Definition minDuration : Duration := - 2 ^ 63.
Definition maxDuration : Duration := 2 ^ 63 - 1.

(** [t.Sub(u)]: the difference, saturated at the ends of [int64]. *)
Definition Sub (t u : Time) : Duration :=
  Z.max minDuration (Z.min maxDuration (t - u)).

(** [d.Seconds() >= lim] for a whole number [lim] of seconds.
    [Seconds] returns [float64(d/Second) + float64(d%Second)/1e9]; the
    whole part is exact and the fraction lies strictly inside (-1, 1), so
    for the constants of this program (1.0 and 10.0) the floating-point
    comparison holds exactly when [d] is at least [lim] seconds. *)
Definition Seconds_ge (d : Duration) (lim : Z) : bool := lim * Second <=? d.

(** [utf8.ValidString], by the table of the unicode/utf8 package: the
    first byte selects the length of the sequence and the range accepted
    for the second byte; every later byte is a continuation byte. *)
Definition cont (b : N) : bool := ((128 <=? b) && (b <=? 191))%N.

Fixpoint valid_bytes (fuel : nat) (s : list N) : bool :=
  match fuel with
  | O => match s with [] => true | _ => false end
  | S fuel =>
    match s with
    | [] => true
    | b :: s =>
      if (b <? 128)%N then valid_bytes fuel s
      else if ((194 <=? b) && (b <=? 223))%N then
        match s with
        | b1 :: s => cont b1 && valid_bytes fuel s
        | _ => false
        end
      else if ((224 <=? b) && (b <=? 239))%N then
        match s with
        | b1 :: b2 :: s =>
          ((if (b =? 224)%N then 160 else 128) <=? b1)%N &&
          (b1 <=? (if (b =? 237)%N then 159 else 191))%N &&
          cont b2 && valid_bytes fuel s
        | _ => false
        end
      else if ((240 <=? b) && (b <=? 244))%N then
        match s with
        | b1 :: b2 :: b3 :: s =>
          ((if (b =? 240)%N then 144 else 128) <=? b1)%N &&
          (b1 <=? (if (b =? 244)%N then 143 else 191))%N &&
          cont b2 && cont b3 && valid_bytes fuel s
        | _ => false
        end
      else false
    end
  end.

Definition ValidString (s : string) : bool :=
  let bs := map N_of_ascii (String.list_ascii_of_string s) in
  valid_bytes (List.length bs) bs.

End Go.

Import Go.

(** ** Connections *)

(** A [*net.TCPAddr], seen through the two renderings the hub uses:
    [addr.IP.String()], the host, which keys the ban list, and
    [addr.String()], host and port, which keys the registry. *)
Module TCPAddr.
Record t := mk { IP : string; String : string }.
End TCPAddr.

(** A [net.Conn]: the socket (its identity) and its remote address. *)
Module Conn.
Record t := mk { fd : N; RemoteAddr : TCPAddr.t }.
End Conn.

(** ** Constants (main.go 11-17, legacy.go 12-18) *)

Definition MessageRate : Z := 1.
Definition BanLimit : Z := 10.
Definition StrikeLimit : Z := 10.

(** ** Data (main.go 27-45, legacy.go 28-48) *)

Definition MessageType := Z.
Definition ClientConnected : MessageType := 1.
Definition NewMessage : MessageType := 2.
Definition ClientDisconnected : MessageType := 3.

(** [Name] is the [*string] of legacy.go, [None] for [nil]; main.go has no
    such field and never reads it.  [Type_] is the field [Type]. *)
Module Message.
Record t := mk {
  Name : option string;
  Type_ : MessageType;
  Conn : Conn.t;
  Text : string
}.
End Message.

Module Client.
Record t := mk {
  Name : option string;
  Conn : Conn.t;
  LastMessage : Time;
  StrikeCount : Z
}.
End Client.

(** The two maps of [server]. *)
Record Hub := mkHub {
  clients : gmap string Client.t;
  bannedMfs : gmap string Time
}.

Definition empty_hub : Hub := mkHub ∅ ∅.

(** What the hub does to the outside world, in program order: a call of
    [c.Write(data)], whatever it returns, a call of [c.Close()], a line
    handed to [log.Printf]. *)
Inductive Effect :=
| Write (c : Conn.t) (data : string)
| Close (c : Conn.t)
| Log (line : string).

Inductive Variant := MainGo | LegacyGo.

(** [SafeMode] is a constant of the source ([true]); it is a parameter here
    so that both of its values can be compared. *)
Record Config := mkConfig { variant : Variant; SafeMode : bool }.

(** What the environment decides while one message is processed: the two
    readings of the clock, the error (if any) a [Write] returns, the order
    in which [range clients] visits the map, which Go leaves unspecified,
    and the text [%f] prints for the seconds that remain of a ban (the
    argument is that remainder in nanoseconds). *)
Record Env := mkEnv {
  now : Time;
  now' : Time;
  write_err : Conn.t → string → option string;
  range : gmap string Client.t → list Client.t;
  range_perm : ∀ m, range m ≡ₚ (map_to_list m).*2;
  Sprintf_f : Z → string
}.

(** ** The hub *)

Definition LF : string := String "010"%char "".

(** main.go 19-25, legacy.go 20-26. *)
Definition sensitive (cfg : Config) (message : string) : string :=
  if SafeMode cfg then "[REDACTED]" else message.

(** The line logged on admission (main.go 72, legacy.go 83); legacy.go
    dereferences the name. *)
Definition connected_log (cfg : Config) (name : option string) (ip : string)
  : option string :=
  match variant cfg with
  | MainGo => Some ("Client " +:+ sensitive cfg ip +:+ " connected" +:+ LF)
  | LegacyGo =>
    n ← name; Some (n +:+ " connected: " +:+ sensitive cfg ip +:+ LF)
  end.

(** The payload and the line logged for an accepted message
    (main.go 90 and 93, legacy.go 101-102). *)
Definition payload_and_log (cfg : Config) (msg : Message.t) (addr : string)
  : option (string * string) :=
  match variant cfg with
  | MainGo =>
    Some (Message.Text msg,
          "Client " +:+ sensitive cfg addr +:+ " sent: " +:+ Message.Text msg)
  | LegacyGo =>
    n ← Message.Name msg;
    Some (n +:+ ": " +:+ Message.Text msg,
          n +:+ " sent: " +:+ Message.Text msg)
  end.

(** The body of the [range clients] loop (main.go 92-97, legacy.go 104-109). *)
Definition send_to (cfg : Config) (env : Env) (authorAddr payload : string)
    (client : Client.t) : list Effect :=
  let addr := TCPAddr.String (Conn.RemoteAddr (Client.Conn client)) in
  if bool_decide (addr ≠ authorAddr) then
    Write (Client.Conn client) payload ::
    match write_err env (Client.Conn client) payload with
    | Some err =>
      [Log ("could not send data to " +:+ sensitive cfg addr +:+ ": " +:+
            sensitive cfg err +:+ LF)]
    | None => []
    end
  else [].

Definition broadcast (cfg : Config) (env : Env) (cs : gmap string Client.t)
    (authorAddr payload : string) : list Effect :=
  range env cs ≫= send_to cfg env authorAddr payload.

(** [author.StrikeCount++] and the ban that may follow; the source has this
    block twice, word for word (main.go 100-104 and 107-111, legacy.go
    112-116 and 119-123).  [author] is the pointer stored under [key]. *)
Definition strike (env : Env) (h : Hub) (key ip : string) (author : Client.t)
  : Hub * list Effect :=
  let author' :=
    Client.mk (Client.Name author) (Client.Conn author)
              (Client.LastMessage author)
              (int_wrap (Client.StrikeCount author + 1)) in
  let clients' := <[key := author']> (clients h) in
  if StrikeLimit <? Client.StrikeCount author' then
    (mkHub clients' (<[ip := now env]> (bannedMfs h)),
     [Close (Client.Conn author')])
  else (mkHub clients' (bannedMfs h), []).

(** The notice a banned host receives (main.go 74, legacy.go 85). *)
Definition rejection_notice (env : Env) (bannedAt : Time) : string :=
  "You are banned buddy: " +:+
  Sprintf_f env (BanLimit * Second - Sub (now env) bannedAt) +:+
  " seconds left" +:+ LF.

(** [case ClientConnected] (main.go 56-76, legacy.go 65-87).  [banned]
    holds [bannedAt] while the flag [banned] of the source is true. *)
Definition on_connected (cfg : Config) (env : Env) (h : Hub) (msg : Message.t)
  : option (Hub * list Effect) :=
  let addr := Conn.RemoteAddr (Message.Conn msg) in
  let ip := TCPAddr.IP addr in
  let expired bannedAt := Seconds_ge (Sub (now env) bannedAt) BanLimit in
  let '(bans, banned) :=
    match bannedMfs h !! ip with
    | Some bannedAt =>
      if expired bannedAt then (delete ip (bannedMfs h), None)
      else (bannedMfs h, Some bannedAt)
    | None => (bannedMfs h, None)
    end in
  match banned with
  | None =>
    line ← connected_log cfg (Message.Name msg) ip;
    Some (mkHub (<[TCPAddr.String addr :=
                   Client.mk (match variant cfg with
                              | MainGo => None
                              | LegacyGo => Message.Name msg
                              end)
                             (Message.Conn msg) (now' env) 0]> (clients h))
                bans,
          [Log line])
  | Some bannedAt =>
    Some (mkHub (clients h) bans,
          [Write (Message.Conn msg) (rejection_notice env bannedAt);
           Close (Message.Conn msg)])
  end.

(** [case ClientDisconnected] (main.go 77-80, legacy.go 88-91). *)
Definition on_disconnected (cfg : Config) (h : Hub) (msg : Message.t)
  : option (Hub * list Effect) :=
  let addr := Conn.RemoteAddr (Message.Conn msg) in
  Some (mkHub (delete (TCPAddr.String addr) (clients h)) (bannedMfs h),
        [Log ("Client " +:+ sensitive cfg (TCPAddr.String addr) +:+
              " disconnected" +:+ LF)]).

(** [case NewMessage] (main.go 81-115, legacy.go 92-127). *)
Definition on_message (cfg : Config) (env : Env) (h : Hub) (msg : Message.t)
  : option (Hub * list Effect) :=
  let authorAddr := Conn.RemoteAddr (Message.Conn msg) in
  let key := TCPAddr.String authorAddr in
  match clients h !! key with
  | Some author =>
    if Seconds_ge (Sub (now env) (Client.LastMessage author)) MessageRate then
      if ValidString (Message.Text msg) then
        let author' :=
          Client.mk (Client.Name author) (Client.Conn author) (now env) 0 in
        let clients' := <[key := author']> (clients h) in
        '(payload, line) ← payload_and_log cfg msg key;
        Some (mkHub clients' (bannedMfs h),
              Log line :: broadcast cfg env clients' key payload)
      else Some (strike env h key (TCPAddr.IP authorAddr) author)
    else Some (strike env h key (TCPAddr.IP authorAddr) author)
  | None => Some (h, [Close (Message.Conn msg)])
  end.

(** One iteration of the [for] loop: the [switch] on [msg.Type], which has no
    default case.  [None] is the nil-pointer panic of legacy.go. *)
Definition server_step (cfg : Config) (env : Env) (h : Hub) (msg : Message.t)
  : option (Hub * list Effect) :=
  if Message.Type_ msg =? ClientConnected then on_connected cfg env h msg
  else if Message.Type_ msg =? ClientDisconnected then on_disconnected cfg h msg
  else if Message.Type_ msg =? NewMessage then on_message cfg env h msg
  else Some (h, []).

(** The loop over the messages received so far, each with what the
    environment decided while it was processed; the effects accumulate in
    program order. *)
Fixpoint server_from (cfg : Config) (h : Hub) (inputs : list (Env * Message.t))
  : option (Hub * list Effect) :=
  match inputs with
  | [] => Some (h, [])
  | (env, msg) :: inputs =>
    '(h1, effs1) ← server_step cfg env h msg;
    '(h2, effs2) ← server_from cfg h1 inputs;
    Some (h2, effs1 ++ effs2)
  end.

(** [server]: both maps start empty (main.go 51-52, legacy.go 60-61). *)
Definition server (cfg : Config) (inputs : list (Env * Message.t))
  : option (Hub * list Effect) :=
  server_from cfg empty_hub inputs.

(** The states the hub can be in. *)
Inductive reachable (cfg : Config) : Hub → Prop :=
| reachable_init : reachable cfg empty_hub
| reachable_step h env msg h' effs :
    reachable cfg h →
    server_step cfg env h msg = Some (h', effs) →
    reachable cfg h'.

(** ** Vocabulary of the specification *)

(** The remote-address identity of the connection a message carries, which
    keys the registry, and its remote-host identity, which keys the ban
    list. *)
Definition key (msg : Message.t) : string :=
  TCPAddr.String (Conn.RemoteAddr (Message.Conn msg)).
Definition host (msg : Message.t) : string :=
  TCPAddr.IP (Conn.RemoteAddr (Message.Conn msg)).

(** Time elapsed since the session's last accepted message, as the hub
    measures it. *)
Definition elapsed (env : Env) (author : Client.t) : Duration :=
  Sub (now env) (Client.LastMessage author).

(** The strike count after [StrikeCount++]. *)
Definition struck (author : Client.t) : Z :=
  int_wrap (Client.StrikeCount author + 1).

(** A message as [client] of legacy.go builds it: the name is set (legacy.go
    145-149 and 163-168).  main.go has no name to set. *)
Definition named (cfg : Config) (msg : Message.t) : Prop :=
  variant cfg = LegacyGo → is_Some (Message.Name msg).

(** The writes among the effects: connection and bytes. *)
Definition writes_of (effs : list Effect) : list (Conn.t * string) :=
  effs ≫= λ e, match e with Write c data => [(c, data)] | _ => [] end.

(** The connections closed among the effects. *)
Definition closes_of (effs : list Effect) : list Conn.t :=
  effs ≫= λ e, match e with Close c => [c] | _ => [] end.

(** An effect with the text of a log line blanked out. *)
Definition blank_log (e : Effect) : Effect :=
  match e with Log _ => Log "" | _ => e end.

Definition blank_logs (r : option (Hub * list Effect))
  : option (Hub * list Effect) :=
  match r with
  | Some (h, effs) => Some (h, map blank_log effs)
  | None => None
  end.

(** Two configurations of the same variant, which may differ in
    [SafeMode]. *)
Definition same_variant (cfg1 cfg2 : Config) : Prop :=
  variant cfg1 = variant cfg2.

(** Every session is registered under the address of its own connection. *)
Definition keyed (h : Hub) : Prop :=
  ∀ k c, clients h !! k = Some c →
         TCPAddr.String (Conn.RemoteAddr (Client.Conn c)) = k.

(** No host with a ban still running at time [t] has a session. *)
Definition no_banned_session (t : Time) (h : Hub) : Prop :=
  ∀ k c bannedAt,
    clients h !! k = Some c →
    bannedMfs h !! TCPAddr.IP (Conn.RemoteAddr (Client.Conn c)) = Some bannedAt →
    bannedAt + BanLimit * Second ≤ t.

(** ** Scenarios *)

Module Scenario.

(** Seconds with six decimals, as [%f] prints them, for a whole number of
    microseconds. *)
Definition fixed6 (ns : Z) : string :=
  let frac := pretty ((ns mod Second) / 1000) in
  pretty (ns / Second) +:+ "." +:+
  string_of_list_ascii (replicate (6 - String.length frac) "0"%char) +:+ frac.

(** The clock reads [t], every write succeeds. *)
Definition env_at (t : Time) : Env :=
  mkEnv t t (λ _ _, None) (λ m, (map_to_list m).*2) (λ m, reflexivity _)
        fixed6.

(** The clock reads [t], every write fails. *)
Definition env_failing (t : Time) : Env :=
  mkEnv t t (λ _ _, Some "broken pipe") (λ m, (map_to_list m).*2)
        (λ m, reflexivity _) fixed6.

Definition main_go : Config := mkConfig MainGo true.
Definition legacy_go : Config := mkConfig LegacyGo true.

Definition A : Conn.t := Conn.mk 1 (TCPAddr.mk "10.0.0.1" "10.0.0.1:5000").
Definition B : Conn.t := Conn.mk 2 (TCPAddr.mk "10.0.0.2" "10.0.0.2:5000").
Definition C : Conn.t := Conn.mk 3 (TCPAddr.mk "10.0.0.3" "10.0.0.3:5000").

Definition connected (c : Conn.t) (name : string) : Message.t :=
  Message.mk (Some name) ClientConnected c "".
Definition disconnected (c : Conn.t) : Message.t :=
  Message.mk None ClientDisconnected c "".
Definition says (c : Conn.t) (name text : string) : Message.t :=
  Message.mk (Some name) NewMessage c text.

Definition session (c : Conn.t) (last : Time) (strikes : Z) : Client.t :=
  Client.mk None c last strikes.

(** A, B and C admitted at time 0. *)
Definition three : Hub :=
  mkHub (<[ "10.0.0.1:5000" := session A 0 0 ]>
         (<[ "10.0.0.2:5000" := session B 0 0 ]>
          (<[ "10.0.0.3:5000" := session C 0 0 ]> ∅))) ∅.

(** A alone, with ten strikes. *)
Definition on_the_brink : Hub :=
  mkHub (<[ "10.0.0.1:5000" := session A 0 10 ]> ∅) ∅.

(** A with ten strikes, B and C without. *)
Definition brink_of_three : Hub :=
  mkHub (<[ "10.0.0.1:5000" := session A 0 10 ]> (clients three)) ∅.

(** Nobody connected, host 10.0.0.1 banned at 1 s. *)
Definition banned_A : Hub := mkHub ∅ (<[ "10.0.0.1" := Second ]> ∅).

(** A connects and sends eleven messages one millisecond apart. *)
Definition flood : list (Env * Message.t) :=
  (env_at 0, connected A "a") ::
  map (λ i : nat, (env_at (Z.of_nat i * 1000000), says A "a" "x")) (seq 1 11).

Definition invalid_text : string := String "255"%char "".

(** The state [flood] ends in: A is banned and still registered. *)
Definition flooded : Hub :=
  mkHub (<[ "10.0.0.1:5000" := session A 0 11 ]> ∅)
        (<[ "10.0.0.1" := 11000000 ]> ∅).

(** How [three] comes about under main.go. *)
Definition arrivals : list (Env * Message.t) :=
  [(env_at 0, connected A "a"); (env_at 0, connected B "b");
   (env_at 0, connected C "c")].

End Scenario.

(** ** The readers *)

(** What one call of [conn.Read(buf)] returns: the bytes it placed in the
    buffer, [buf[0:n]], and the error.  The buffers hold 512 bytes in
    main.go, 20 (the name) and 64 in legacy.go. *)
Record ReadResult := mkRead { bytes : string; err : option string }.

(** What a reader does, in program order: a message sent on the channel, an
    effect on the connection or the log, a line printed on standard
    output. *)
Inductive Action :=
| Send (msg : Message.t)
| Perform (e : Effect)
| Println (line : string).

(** The messages among the actions. *)
Definition sent (acts : list Action) : list Message.t :=
  acts ≫= λ a, match a with Send msg => [msg] | _ => [] end.

(** The effects among the actions. *)
Definition performed (acts : list Action) : list Effect :=
  acts ≫= λ a, match a with Perform e => [e] | _ => [] end.

(** [cleanName] (legacy.go 50-57): the name returned and what it prints.
    [strings.TrimSpace] belongs to the Go library and is taken as given;
    [fmt.Println] puts a space between its two operands. *)
Definition cleanName (TrimSpace : string → string) (name : string)
  : string * list Action :=
  let trimmed := TrimSpace name in
  (if ValidString trimmed && bool_decide (trimmed ≠ "") then trimmed
   else "anon",
   [Println ("trimmed: " +:+ " " +:+ trimmed +:+ LF)]).

(** The [for] loop of [client] (main.go 122-138, legacy.go 151-169) over the
    reads it is given; when they run out the reader is waiting in [Read].
    [name] is the [&name] legacy.go attaches to its messages. *)
Fixpoint client_loop (cfg : Config) (conn : Conn.t) (name : option string)
    (reads : list ReadResult) : list Action :=
  match reads with
  | [] => []
  | r :: reads =>
    match err r with
    | Some e =>
      [Perform (Log ("could not read from " +:+
                     sensitive cfg (TCPAddr.String (Conn.RemoteAddr conn)) +:+
                     ": " +:+ sensitive cfg e +:+ LF));
       Perform (Close conn);
       Send (Message.mk None ClientDisconnected conn "")]
    | None =>
      Send (Message.mk name NewMessage conn (bytes r)) ::
      client_loop cfg conn name reads
    end
  end.

(** [client] (main.go 120-139, legacy.go 132-170).  legacy.go first asks for
    the name and announces the connection itself. *)
Definition client (TrimSpace : string → string) (cfg : Config) (conn : Conn.t)
    (reads : list ReadResult) : list Action :=
  match variant cfg with
  | MainGo => client_loop cfg conn None reads
  | LegacyGo =>
    Perform (Write conn "Enter your name: ") ::
    match reads with
    | [] => []
    | r :: reads =>
      match err r with
      | Some e =>
        [Perform (Log ("could not read name from " +:+
                       sensitive cfg (TCPAddr.String (Conn.RemoteAddr conn)) +:+
                       ": " +:+ sensitive cfg e +:+ LF));
         Perform (Close conn)]
      | None =>
        let '(name, out) := cleanName TrimSpace (bytes r) in
        out ++
        Send (Message.mk (Some name) ClientConnected conn "") ::
        client_loop cfg conn (Some name) reads
      end
    end
  end.

(** What [main] does with one accepted connection (main.go 156-161,
    legacy.go 188), followed by what the reader it starts does: main.go
    announces the connection before it starts the reader. *)
Definition connection (TrimSpace : string → string) (cfg : Config)
    (conn : Conn.t) (reads : list ReadResult) : list Action :=
  match variant cfg with
  | MainGo => [Send (Message.mk None ClientConnected conn "")]
  | LegacyGo => []
  end ++ client TrimSpace cfg conn reads.

(** The bytes read before the first failed read; what a failed read returns
    besides its error is not among them. *)
Fixpoint read_before_error (reads : list ReadResult) : list string :=
  match reads with
  | [] => []
  | r :: reads =>
    match err r with
    | Some _ => []
    | None => bytes r :: read_before_error reads
    end
  end.

(** Some read failed. *)
Definition read_fails (reads : list ReadResult) : bool :=
  existsb (λ r, bool_decide (is_Some (err r))) reads.

(** What the hub is to hear from the loop of a reader: one [NewMessage] for
    each read before the first failure, then, if a read failed, one
    [ClientDisconnected]. *)
Definition forwarded (conn : Conn.t) (name : option string)
    (reads : list ReadResult) : list Message.t :=
  map (λ text, Message.mk name NewMessage conn text) (read_before_error reads)
  ++ if read_fails reads then [Message.mk None ClientDisconnected conn ""]
     else [].

(** A message the hub handles without looking at the name. *)
Definition harmless (cfg : Config) (msg : Message.t) : Prop :=
  Message.Type_ msg = ClientDisconnected ∨ named cfg msg.

(** ** The forms of a log line when [SafeMode] is on *)

Definition redacted_log_lines (cfg : Config) (msg : Message.t) : list string :=
  [ "Client [REDACTED] disconnected" +:+ LF;
    "could not send data to [REDACTED]: [REDACTED]" +:+ LF ] ++
  match variant cfg, Message.Name msg with
  | MainGo, _ =>
    [ "Client [REDACTED] connected" +:+ LF;
      "Client [REDACTED] sent: " +:+ Message.Text msg ]
  | LegacyGo, Some n =>
    [ n +:+ " connected: [REDACTED]" +:+ LF;
      n +:+ " sent: " +:+ Message.Text msg ]
  | LegacyGo, None => []
  end.

(** A message from the session under [k] that will be counted as a strike,
    given when that session last had a message accepted. *)
Definition strikes_at (k : string) (last : Time) (input : Env * Message.t)
  : Prop :=
  Message.Type_ input.2 = NewMessage ∧
  key input.2 = k ∧
  (Sub (now input.1) last < MessageRate * Second ∨
   ValidString (Message.Text input.2) = false).

(** ** More scenarios *)

Module Lifecycle.

(** [strings.TrimSpace] on names written in ASCII: tab, line feed, vertical
    tab, form feed, carriage return and space are dropped at both ends. *)
Definition ascii_space (c : ascii) : bool :=
  match N_of_ascii c with
  | 9 | 10 | 11 | 12 | 13 | 32 => true
  | _ => false
  end%N.

Fixpoint trim_left (s : list ascii) : list ascii :=
  match s with
  | c :: s' => if ascii_space c then trim_left s' else s
  | [] => []
  end.

Definition TrimSpace (s : string) : string :=
  string_of_list_ascii
    (reverse (trim_left (reverse (trim_left (list_ascii_of_string s))))).

(** A client names itself, says two things and hangs up. *)
Definition visit : list ReadResult :=
  [mkRead (" ann" +:+ LF) None; mkRead "hello" None; mkRead "bye" None;
   mkRead "lost" (Some "EOF"); mkRead "never read" None].

(** The clock reads [t] at the [i]-th message. *)
Definition ticking (msgs : list Message.t) : list (Env * Message.t) :=
  imap (λ i msg, (Scenario.env_at (Z.of_nat i * 2 * Second), msg)) msgs.

(** A connection the hub has not admitted. *)
Definition stranger : Conn.t :=
  Conn.mk 4 (TCPAddr.mk "10.0.0.4" "10.0.0.4:5000").

(** Ten fast messages from A. *)
Definition ten_fast : list (Env * Message.t) :=
  replicate 10 (Scenario.env_at 1000, Scenario.says Scenario.A "a" "x").

End Lifecycle.

(** ** Clock arithmetic *)

Lemma Seconds_ge_true d lim : Seconds_ge d lim = true ↔ lim * Second ≤ d.
Proof. unfold Seconds_ge. apply Z.leb_le. Qed.

Lemma Seconds_ge_false d lim : Seconds_ge d lim = false ↔ d < lim * Second.
Proof. unfold Seconds_ge. apply Z.leb_gt. Qed.

(** Saturation does not move a difference across a threshold that is itself
    a duration. *)
Lemma Sub_ge t u d :
  minDuration < d ≤ maxDuration → d ≤ Sub t u ↔ u + d ≤ t.
Proof. unfold Sub, minDuration, maxDuration. lia. Qed.

Lemma Sub_lt t u d :
  minDuration < d ≤ maxDuration → Sub t u < d ↔ t < u + d.
Proof. unfold Sub, minDuration, maxDuration. lia. Qed.

Lemma BanLimit_duration : minDuration < BanLimit * Second ≤ maxDuration.
Proof. vm_compute. split; [reflexivity | discriminate]. Qed.

Lemma MessageRate_duration : minDuration < MessageRate * Second ≤ maxDuration.
Proof. vm_compute. split; [reflexivity | discriminate]. Qed.

Lemma int_wrap_id z : int_min ≤ z ≤ int_max → int_wrap z = z.
Proof.
  unfold int_wrap, int_min, int_max. intros Hz.
  rewrite Z.mod_small; lia.
Qed.

(** ** The dispatch on the message type *)

Lemma step_connected cfg env h msg :
  Message.Type_ msg = ClientConnected →
  server_step cfg env h msg = on_connected cfg env h msg.
Proof. unfold server_step. intros ->. reflexivity. Qed.

Lemma step_disconnected cfg env h msg :
  Message.Type_ msg = ClientDisconnected →
  server_step cfg env h msg = on_disconnected cfg h msg.
Proof. unfold server_step. intros ->. reflexivity. Qed.

Lemma step_message cfg env h msg :
  Message.Type_ msg = NewMessage →
  server_step cfg env h msg = on_message cfg env h msg.
Proof. unfold server_step. intros ->. reflexivity. Qed.

Lemma step_other cfg env h msg :
  Message.Type_ msg ≠ ClientConnected →
  Message.Type_ msg ≠ ClientDisconnected →
  Message.Type_ msg ≠ NewMessage →
  server_step cfg env h msg = Some (h, []).
Proof.
  unfold server_step. intros H1 H2 H3.
  apply Z.eqb_neq in H1, H2, H3. by rewrite H1, H2, H3.
Qed.

(** ** Strikes *)

(** A message that is too fast, or is not valid text, is handled by
    [strike]. *)
Lemma on_message_strike cfg env h msg author :
  clients h !! key msg = Some author →
  elapsed env author < MessageRate * Second ∨
  ValidString (Message.Text msg) = false →
  on_message cfg env h msg = Some (strike env h (key msg) (host msg) author).
Proof.
  unfold on_message, key, host, elapsed. intros -> Hwhy.
  destruct (Seconds_ge _ _) eqn:Hrate; [|done].
  destruct Hwhy as [Hfast|Hbad].
  - apply Seconds_ge_true in Hrate. lia.
  - by rewrite Hbad.
Qed.

Lemma strike_clients env h k ip author :
  clients (strike env h k ip author).1 =
  <[k := Client.mk (Client.Name author) (Client.Conn author)
                   (Client.LastMessage author) (struck author)]> (clients h).
Proof. unfold strike. simpl. by destruct (_ <? _). Qed.

Lemma strike_banned env h k ip author :
  StrikeLimit < struck author →
  bannedMfs (strike env h k ip author).1 = <[ip := now env]> (bannedMfs h) ∧
  (strike env h k ip author).2 = [Close (Client.Conn author)].
Proof.
  unfold strike, struck. simpl. intros Hlim.
  apply Z.ltb_lt in Hlim. by rewrite Hlim.
Qed.

Lemma strike_spared env h k ip author :
  struck author ≤ StrikeLimit →
  bannedMfs (strike env h k ip author).1 = bannedMfs h ∧
  (strike env h k ip author).2 = [].
Proof.
  unfold strike, struck. simpl. intros Hlim.
  apply Z.ltb_ge in Hlim. by rewrite Hlim.
Qed.

Lemma strike_writes env h k ip author :
  writes_of (strike env h k ip author).2 = [].
Proof. unfold strike. simpl. by destruct (_ <? _). Qed.

(** C1.  A message from a registered session that arrives before the
    minimum interval has elapsed is a strike whatever its text: the strike
    count is incremented ([StrikeCount++], which is plus one below the top
    of [int]), [LastMessage] stays, nothing is written to any connection,
    and the ban rule is applied to the new count. *)
Theorem rate_violation_is_a_strike cfg env h msg author :
  Message.Type_ msg = NewMessage →
  clients h !! key msg = Some author →
  elapsed env author < MessageRate * Second →
  ∃ h' effs author',
    server_step cfg env h msg = Some (h', effs) ∧
    clients h' = <[key msg := author']> (clients h) ∧
    Client.StrikeCount author' = struck author ∧
    (int_min ≤ Client.StrikeCount author < int_max →
     Client.StrikeCount author' = Client.StrikeCount author + 1) ∧
    Client.LastMessage author' = Client.LastMessage author ∧
    Client.Conn author' = Client.Conn author ∧
    Client.Name author' = Client.Name author ∧
    writes_of effs = [] ∧
    if StrikeLimit <? Client.StrikeCount author'
    then bannedMfs h' = <[host msg := now env]> (bannedMfs h) ∧
         effs = [Close (Client.Conn author)]
    else bannedMfs h' = bannedMfs h ∧ effs = [].
Proof.
  intros Htype Hin Hfast.
  pose proof (on_message_strike cfg env h msg author Hin (or_introl Hfast))
    as Hstep.
  rewrite <- (step_message cfg env h msg Htype) in Hstep.
  destruct (strike env h (key msg) (host msg) author) as [h' effs] eqn:Hs.
  exists h', effs.
  eexists (Client.mk _ _ _ _).
  split; [exact Hstep|].
  split; [by rewrite <- (strike_clients env h (key msg) (host msg)), Hs|].
  simpl. split; [done|].
  split; [intros Hrange; unfold struck; apply int_wrap_id; lia|].
  do 3 (split; [done|]).
  split; [by rewrite <- (strike_writes env h (key msg) (host msg) author), Hs|].
  destruct (StrikeLimit <? struck author) eqn:Hlim.
  - apply Z.ltb_lt in Hlim.
    destruct (strike_banned env h (key msg) (host msg) author Hlim).
    by rewrite Hs in *.
  - apply Z.ltb_ge in Hlim.
    destruct (strike_spared env h (key msg) (host msg) author Hlim).
    by rewrite Hs in *.
Qed.

Lemma rate_violation_witness :
  Message.Type_ (Scenario.says Scenario.A "a" "hello") = NewMessage ∧
  clients Scenario.three !! key (Scenario.says Scenario.A "a" "hello") =
    Some (Scenario.session Scenario.A 0 0) ∧
  elapsed (Scenario.env_at 500000000) (Scenario.session Scenario.A 0 0) <
    MessageRate * Second ∧
  ∃ h' effs author',
    server_step Scenario.main_go (Scenario.env_at 500000000) Scenario.three
                (Scenario.says Scenario.A "a" "hello") = Some (h', effs) ∧
    clients h' = <[ "10.0.0.1:5000" := author' ]> (clients Scenario.three) ∧
    Client.StrikeCount author' = 1 ∧
    Client.LastMessage author' = 0 ∧
    writes_of effs = [].
Proof.
  assert (H1 : Message.Type_ (Scenario.says Scenario.A "a" "hello") = NewMessage)
    by reflexivity.
  assert (H2 : clients Scenario.three !! key (Scenario.says Scenario.A "a" "hello")
               = Some (Scenario.session Scenario.A 0 0))
    by (vm_compute; reflexivity).
  assert (H3 : elapsed (Scenario.env_at 500000000)
                 (Scenario.session Scenario.A 0 0) < MessageRate * Second)
    by (vm_compute; reflexivity).
  do 3 (split; [assumption|]).
  destruct (rate_violation_is_a_strike Scenario.main_go _ _ _ _ H1 H2 H3)
    as (h' & effs & author' & Hstep & Hcl & Hn & _ & Hlast & _ & _ & Hw & _).
  exists h', effs, author'. repeat split; assumption.
Defined.

(** C4.  A strike, for speed or for invalid text, that takes the count above
    [StrikeLimit] bans the sender's host at the current time and closes the
    session's connection while that very message is processed; a strike
    that leaves the count at or below the limit touches neither the ban
    list nor any connection. *)
Theorem ban_on_the_triggering_message cfg env h msg author :
  Message.Type_ msg = NewMessage →
  clients h !! key msg = Some author →
  elapsed env author < MessageRate * Second ∨
  ValidString (Message.Text msg) = false →
  ∃ h' effs author',
    server_step cfg env h msg = Some (h', effs) ∧
    clients h' !! key msg = Some author' ∧
    Client.StrikeCount author' = struck author ∧
    (StrikeLimit < struck author →
     bannedMfs h' = <[host msg := now env]> (bannedMfs h) ∧
     bannedMfs h' !! host msg = Some (now env) ∧
     effs = [Close (Client.Conn author)]) ∧
    (struck author ≤ StrikeLimit →
     bannedMfs h' = bannedMfs h ∧ effs = []).
Proof.
  intros Htype Hin Hwhy.
  rewrite (step_message cfg env h msg Htype).
  rewrite (on_message_strike cfg env h msg author Hin Hwhy).
  exists (strike env h (key msg) (host msg) author).1,
         (strike env h (key msg) (host msg) author).2.
  eexists. split; [by destruct (strike _ _ _ _ _)|].
  rewrite strike_clients, lookup_insert_eq.
  split; [reflexivity|]. split; [reflexivity|]. split.
  - intros Hlim.
    destruct (strike_banned env h (key msg) (host msg) author Hlim) as [-> ->].
    by rewrite lookup_insert_eq.
  - intros Hlim. by apply strike_spared.
Qed.

Lemma ban_trigger_witness :
  Message.Type_ (Scenario.says Scenario.A "a" Scenario.invalid_text)
    = NewMessage ∧
  clients Scenario.on_the_brink !!
    key (Scenario.says Scenario.A "a" Scenario.invalid_text)
    = Some (Scenario.session Scenario.A 0 10) ∧
  (elapsed (Scenario.env_at 5000000000) (Scenario.session Scenario.A 0 10)
     < MessageRate * Second ∨
   ValidString (Message.Text (Scenario.says Scenario.A "a" Scenario.invalid_text))
     = false) ∧
  ∃ h',
    server_step Scenario.main_go (Scenario.env_at 5000000000)
                Scenario.on_the_brink
                (Scenario.says Scenario.A "a" Scenario.invalid_text)
      = Some (h', [Close Scenario.A]) ∧
    bannedMfs h' !! "10.0.0.1" = Some 5000000000.
Proof.
  assert (H1 : Message.Type_ (Scenario.says Scenario.A "a" Scenario.invalid_text)
               = NewMessage) by reflexivity.
  assert (H2 : clients Scenario.on_the_brink !!
                 key (Scenario.says Scenario.A "a" Scenario.invalid_text)
               = Some (Scenario.session Scenario.A 0 10))
    by (vm_compute; reflexivity).
  assert (H3 : elapsed (Scenario.env_at 5000000000)
                 (Scenario.session Scenario.A 0 10) < MessageRate * Second ∨
               ValidString (Message.Text
                   (Scenario.says Scenario.A "a" Scenario.invalid_text)) = false)
    by (right; vm_compute; reflexivity).
  do 3 (split; [assumption|]).
  destruct (ban_on_the_triggering_message Scenario.main_go _ _ _ _ H1 H2 H3)
    as (h' & effs & author' & Hstep & _ & _ & Hban & _).
  destruct Hban as (_ & Hrec & ->); [vm_compute; reflexivity|].
  exists h'. split; assumption.
Defined.

Lemma on_message_stranger cfg env h msg :
  clients h !! key msg = None →
  on_message cfg env h msg = Some (h, [Close (Message.Conn msg)]).
Proof. unfold on_message, key. cbv zeta. by intros ->. Qed.

(** C8.  A message from a connection with no session closes that connection
    and does nothing else: both maps stay as they are, nothing is written
    and no strike is counted. *)
Theorem message_without_session cfg env h msg :
  Message.Type_ msg = NewMessage →
  clients h !! key msg = None →
  server_step cfg env h msg = Some (h, [Close (Message.Conn msg)]).
Proof.
  intros Htype Hout. rewrite (step_message cfg env h msg Htype).
  by apply on_message_stranger.
Qed.

Lemma message_without_session_witness :
  Message.Type_ (Scenario.says Scenario.A "a" "hello") = NewMessage ∧
  clients Scenario.banned_A !! key (Scenario.says Scenario.A "a" "hello")
    = None ∧
  server_step Scenario.legacy_go (Scenario.env_at 0) Scenario.banned_A
              (Scenario.says Scenario.A "a" "hello")
    = Some (Scenario.banned_A, [Close Scenario.A]).
Proof.
  assert (H1 : Message.Type_ (Scenario.says Scenario.A "a" "hello") = NewMessage)
    by reflexivity.
  assert (H2 : clients Scenario.banned_A !!
                 key (Scenario.says Scenario.A "a" "hello") = None)
    by (vm_compute; reflexivity).
  do 2 (split; [assumption|]).
  exact (message_without_session Scenario.legacy_go _ _ _ H1 H2).
Defined.

(** C7.  A [ClientDisconnected] message always succeeds and deletes the
    session registered under the connection's address: nothing changes when
    there is none, the ban list is never touched, and processing the message
    a second time leaves the state the first one produced. *)
Theorem disconnect_is_idempotent cfg env env2 h msg :
  Message.Type_ msg = ClientDisconnected →
  ∃ h1 effs1,
    server_step cfg env h msg = Some (h1, effs1) ∧
    clients h1 = delete (key msg) (clients h) ∧
    bannedMfs h1 = bannedMfs h ∧
    writes_of effs1 = [] ∧ closes_of effs1 = [] ∧
    (clients h !! key msg = None → h1 = h) ∧
    ∃ effs2, server_step cfg env2 h1 msg = Some (h1, effs2).
Proof.
  intros Htype. rewrite !(step_disconnected _ _ _ _ Htype).
  unfold on_disconnected. fold (key msg).
  eexists _, _. split; [reflexivity|]. simpl.
  do 4 (split; [reflexivity|]). split.
  - intros Hout. destruct h as [cs bans]. simpl in *.
    by rewrite delete_id.
  - eexists. rewrite (step_disconnected _ _ _ _ Htype).
    unfold on_disconnected. fold (key msg). simpl.
    by rewrite delete_delete_eq.
Qed.

Lemma disconnect_witness :
  Message.Type_ (Scenario.disconnected Scenario.B) = ClientDisconnected ∧
  ∃ h1 effs1 effs2,
    server_step Scenario.main_go (Scenario.env_at 7) Scenario.three
                (Scenario.disconnected Scenario.B) = Some (h1, effs1) ∧
    clients h1 !! "10.0.0.2:5000" = None ∧
    server_step Scenario.main_go (Scenario.env_at 8) h1
                (Scenario.disconnected Scenario.B) = Some (h1, effs2).
Proof.
  assert (H1 : Message.Type_ (Scenario.disconnected Scenario.B)
               = ClientDisconnected) by reflexivity.
  split; [assumption|].
  destruct (disconnect_is_idempotent Scenario.main_go (Scenario.env_at 7)
              (Scenario.env_at 8) Scenario.three _ H1)
    as (h1 & effs1 & Hstep & Hcl & _ & _ & _ & _ & effs2 & Hagain).
  exists h1, effs1, effs2. split; [assumption|]. split; [|assumption].
  rewrite Hcl. apply lookup_delete_eq.
Defined.

(** ** Admission *)

Lemma ban_running env (bannedAt : Time) :
  now env < bannedAt + BanLimit * Second →
  Seconds_ge (Sub (now env) bannedAt) BanLimit = false.
Proof.
  intros Hearly. apply Seconds_ge_false.
  by apply (Sub_lt _ _ _ BanLimit_duration).
Qed.

Lemma ban_over env (bannedAt : Time) :
  bannedAt + BanLimit * Second ≤ now env →
  Seconds_ge (Sub (now env) bannedAt) BanLimit = true.
Proof.
  intros Hlate. apply Seconds_ge_true.
  by apply (Sub_ge _ _ _ BanLimit_duration).
Qed.

Lemma connected_log_named cfg msg ip :
  named cfg msg → is_Some (connected_log cfg (Message.Name msg) ip).
Proof.
  unfold named, connected_log. destruct (variant cfg); [eauto|].
  intros Hn. destruct (Hn eq_refl) as [n ->]. simpl. eauto.
Qed.

Lemma on_connected_rejected cfg env h msg (bannedAt : Time) :
  bannedMfs h !! host msg = Some bannedAt →
  now env < bannedAt + BanLimit * Second →
  on_connected cfg env h msg =
    Some (h, [Write (Message.Conn msg) (rejection_notice env bannedAt);
              Close (Message.Conn msg)]).
Proof.
  unfold on_connected, host. cbv zeta. intros -> Hearly.
  rewrite (ban_running env bannedAt Hearly). by destruct h.
Qed.

Lemma on_connected_readmitted cfg env h msg (bannedAt : Time) line :
  bannedMfs h !! host msg = Some bannedAt →
  bannedAt + BanLimit * Second ≤ now env →
  connected_log cfg (Message.Name msg) (host msg) = Some line →
  on_connected cfg env h msg =
    Some (mkHub (<[key msg := Client.mk (match variant cfg with
                                         | MainGo => None
                                         | LegacyGo => Message.Name msg
                                         end)
                                        (Message.Conn msg) (now' env) 0]>
                   (clients h))
                (delete (host msg) (bannedMfs h)),
          [Log line]).
Proof.
  unfold on_connected, host, key. cbv zeta. intros -> Hlate ->.
  by rewrite (ban_over env bannedAt Hlate).
Qed.

(** C2.  A [ClientConnected] message from a host with a ban record.  Before
    the ban has run its [BanLimit] seconds the connection is written the
    text "You are banned buddy: ", the time that remains as [%f] prints it,
    and " seconds left", and is closed; neither map changes.  The time that
    remains, which is what the hub hands to [%f], is positive; it is
    [BanLimit] seconds minus the time since [bannedAt], that is
    [bannedAt + BanLimit - now] (unless the two clock readings are more
    than an [int64] of nanoseconds apart and [Sub] saturates).  From the
    end of the ban on, the record is deleted and the connection is
    registered with a fresh session. *)
Theorem ban_gating cfg env h msg (bannedAt : Time) :
  Message.Type_ msg = ClientConnected →
  bannedMfs h !! host msg = Some bannedAt →
  (now env < bannedAt + BanLimit * Second →
   ∃ remaining : Duration,
     remaining = BanLimit * Second - Sub (now env) bannedAt ∧
     0 < remaining ∧
     (minDuration ≤ now env - bannedAt →
      remaining = bannedAt + BanLimit * Second - now env) ∧
     server_step cfg env h msg =
       Some (h, [Write (Message.Conn msg)
                       ("You are banned buddy: " +:+
                        Sprintf_f env remaining +:+
                        " seconds left" +:+ String "010"%char "");
                 Close (Message.Conn msg)])) ∧
  (bannedAt + BanLimit * Second ≤ now env → named cfg msg →
   ∃ name line,
     server_step cfg env h msg =
       Some (mkHub (<[key msg := Client.mk name (Message.Conn msg) (now' env) 0]>
                      (clients h))
                   (delete (host msg) (bannedMfs h)),
             [Log line])).
Proof.
  intros Htype Hban. rewrite (step_connected cfg env h msg Htype). split.
  - intros Hearly. exists (BanLimit * Second - Sub (now env) bannedAt).
    split; [reflexivity|].
    pose proof (proj2 (Sub_lt (now env) bannedAt _ BanLimit_duration) Hearly)
      as Hleft.
    split; [lia|]. split.
    + intros Hfloor. revert Hearly.
      unfold Sub, minDuration, maxDuration, BanLimit, Second in *. lia.
    + by apply on_connected_rejected.
  - intros Hlate Hnamed.
    destruct (connected_log_named cfg msg (host msg) Hnamed) as [line Hline].
    exists (match variant cfg with
            | MainGo => None
            | LegacyGo => Message.Name msg
            end), line.
    by apply (on_connected_readmitted cfg env h msg bannedAt).
Qed.

Lemma ban_gating_witness :
  Message.Type_ (Scenario.connected Scenario.A "a") = ClientConnected ∧
  bannedMfs Scenario.banned_A !! host (Scenario.connected Scenario.A "a")
    = Some Second ∧
  server_step Scenario.legacy_go (Scenario.env_at 3500000000) Scenario.banned_A
              (Scenario.connected Scenario.A "a")
    = Some (Scenario.banned_A,
            [Write Scenario.A
               ("You are banned buddy: 7.500000 seconds left" +:+ LF);
             Close Scenario.A]) ∧
  ∃ h' effs,
    server_step Scenario.legacy_go (Scenario.env_at 11000000000)
                Scenario.banned_A (Scenario.connected Scenario.A "a")
      = Some (h', effs) ∧
    bannedMfs h' !! "10.0.0.1" = None ∧
    clients h' !! "10.0.0.1:5000"
      = Some (Client.mk (Some "a") Scenario.A 11000000000 0).
Proof.
  assert (H1 : Message.Type_ (Scenario.connected Scenario.A "a")
               = ClientConnected) by reflexivity.
  assert (H2 : bannedMfs Scenario.banned_A !!
                 host (Scenario.connected Scenario.A "a") = Some Second)
    by (vm_compute; reflexivity).
  do 2 (split; [assumption|]). split.
  - destruct (ban_gating Scenario.legacy_go (Scenario.env_at 3500000000)
                _ _ _ H1 H2) as [Hearly _].
    destruct Hearly as (remaining & -> & _ & _ & ->);
      [vm_compute; reflexivity | reflexivity].
  - destruct (ban_gating Scenario.legacy_go (Scenario.env_at 11000000000)
                _ _ _ H1 H2) as [_ Hlate].
    destruct Hlate as (name & line & Hstep);
      [vm_compute; discriminate | intros _; simpl; eauto |].
    eexists _, _. split; [exact Hstep|]. simpl.
    split; [apply lookup_delete_eq|].
    rewrite lookup_insert_eq.
    rewrite (step_connected _ _ _ _ H1) in Hstep. vm_compute in Hstep.
    vm_compute. congruence.
Defined.

(** ** Accepted messages *)

Lemma payload_and_log_named cfg msg addr :
  named cfg msg → is_Some (payload_and_log cfg msg addr).
Proof.
  unfold named, payload_and_log. destruct (variant cfg); [eauto|].
  intros Hn. destruct (Hn eq_refl) as [n ->]. simpl. eauto.
Qed.

Lemma payload_carries_text cfg msg addr payload line :
  payload_and_log cfg msg addr = Some (payload, line) →
  match variant cfg with
  | MainGo => payload = Message.Text msg
  | LegacyGo => ∃ n, Message.Name msg = Some n ∧
                     payload = n +:+ ": " +:+ Message.Text msg
  end.
Proof.
  unfold payload_and_log. destruct (variant cfg).
  - by intros [= <- _].
  - destruct (Message.Name msg) as [n|]; [|done].
    intros [= <- _]. eauto.
Qed.

Lemma on_message_accept cfg env h msg author payload line :
  clients h !! key msg = Some author →
  MessageRate * Second ≤ elapsed env author →
  ValidString (Message.Text msg) = true →
  payload_and_log cfg msg (key msg) = Some (payload, line) →
  on_message cfg env h msg =
    let clients' :=
      <[key msg := Client.mk (Client.Name author) (Client.Conn author)
                             (now env) 0]> (clients h) in
    Some (mkHub clients' (bannedMfs h),
          Log line :: broadcast cfg env clients' (key msg) payload).
Proof.
  unfold on_message, key, elapsed. cbv zeta. intros -> Hslow -> ->.
  apply Seconds_ge_true in Hslow. by rewrite Hslow.
Qed.

(** ** The step never fails on the messages [client] builds *)

Lemma server_step_total cfg env h msg :
  named cfg msg → is_Some (server_step cfg env h msg).
Proof.
  intros Hnamed. unfold server_step.
  destruct (_ =? ClientConnected); [|destruct (_ =? ClientDisconnected);
    [|destruct (_ =? NewMessage)]]; [| done | | done].
  - unfold on_connected. cbv zeta.
    destruct (connected_log_named cfg msg
                (TCPAddr.IP (Conn.RemoteAddr (Message.Conn msg))) Hnamed)
      as [line Hline].
    destruct (bannedMfs h !! _) as [bannedAt|]; [destruct (Seconds_ge _ _)|];
      rewrite ?Hline; done.
  - unfold on_message. cbv zeta.
    destruct (payload_and_log_named cfg msg
                (TCPAddr.String (Conn.RemoteAddr (Message.Conn msg))) Hnamed)
      as [[payload line] Hpl].
    destruct (clients h !! _) as [author|]; [|done].
    destruct (Seconds_ge _ _); [destruct (ValidString _)|];
      rewrite ?Hpl; done.
Qed.

(** The nil name legacy.go would trip over: [log.Printf] dereferences it
    (legacy.go 83). *)
Example legacy_nil_name_panics :
  server_step Scenario.legacy_go (Scenario.env_at 0) empty_hub
              (Message.mk None ClientConnected Scenario.A "") = None ∧
  is_Some (server_step Scenario.main_go (Scenario.env_at 0) empty_hub
                       (Message.mk None ClientConnected Scenario.A "")).
Proof. split; vm_compute; eauto. Qed.

(** ** Sessions are registered under their own address *)

Lemma strike_keyed env h k ip author :
  keyed h → clients h !! k = Some author →
  keyed (strike env h k ip author).1.
Proof.
  intros Hk Hin k' c. rewrite strike_clients.
  destruct (decide (k = k')) as [<-|Hne].
  - rewrite lookup_insert_eq. intros [= <-]. simpl. by apply Hk.
  - rewrite lookup_insert_ne by done. apply Hk.
Qed.

Lemma step_keyed cfg env h msg h' effs :
  keyed h → server_step cfg env h msg = Some (h', effs) → keyed h'.
Proof.
  intros Hk. unfold server_step.
  destruct (_ =? ClientConnected); [|destruct (_ =? ClientDisconnected);
    [|destruct (_ =? NewMessage)]].
  - unfold on_connected. cbv zeta.
    destruct (bannedMfs h !! _) as [bannedAt|]; [destruct (Seconds_ge _ _)|].
    2:{ intros [= <- _]. exact Hk. }
    all: destruct (connected_log _ _ _); [|done]; intros [= <- _] k c; simpl.
    all: destruct (decide (TCPAddr.String (Conn.RemoteAddr (Message.Conn msg)) = k))
           as [<-|Hne];
         [rewrite lookup_insert_eq; by intros [= <-]
         |rewrite lookup_insert_ne by done; apply Hk].
  - unfold on_disconnected. intros [= <- _] k c. simpl.
    intros [_ Hin]%lookup_delete_Some. by apply Hk.
  - unfold on_message. cbv zeta.
    destruct (clients h !! _) as [author|] eqn:Hin.
    2:{ by intros [= <- _]. }
    assert (∀ r, Some (strike env h
                (TCPAddr.String (Conn.RemoteAddr (Message.Conn msg)))
                (TCPAddr.IP (Conn.RemoteAddr (Message.Conn msg))) author)
              = Some r → keyed r.1) as Hstrike.
    { intros r [= <-]. by apply strike_keyed. }
    destruct (Seconds_ge _ _); [destruct (ValidString _)|].
    2,3: intros Hs; apply (Hstrike _ Hs).
    destruct (payload_and_log _ _ _) as [[payload line]|]; [|done].
    intros [= <- _] k c. simpl.
    destruct (decide (TCPAddr.String (Conn.RemoteAddr (Message.Conn msg)) = k))
      as [<-|Hne].
    + rewrite lookup_insert_eq. intros [= <-]. simpl. by apply Hk.
    + rewrite lookup_insert_ne by done. apply Hk.
  - by intros [= <- _].
Qed.

Lemma reachable_keyed cfg h : reachable cfg h → keyed h.
Proof.
  induction 1 as [|h env msg h' effs _ IH Hstep].
  - intros k c. simpl. by rewrite lookup_empty.
  - exact (step_keyed cfg env h msg h' effs IH Hstep).
Qed.

(** The finite prefixes of the loop produce reachable states. *)
Lemma server_from_reachable cfg inputs h h' effs :
  reachable cfg h → server_from cfg h inputs = Some (h', effs) →
  reachable cfg h'.
Proof.
  revert h effs. induction inputs as [|[env msg] inputs IH]; intros h effs Hr.
  - by intros [= <- _].
  - simpl. destruct (server_step cfg env h msg) as [[h1 effs1]|] eqn:Hstep;
      [|done]. simpl.
    destruct (server_from cfg h1 inputs) as [[h2 effs2]|] eqn:Hrest; [|done].
    simpl. intros [= <- _].
    eapply IH; [|exact Hrest]. by eapply reachable_step.
Qed.

(** ** Broadcast *)

Lemma writes_of_app effs1 effs2 :
  writes_of (effs1 ++ effs2) = writes_of effs1 ++ writes_of effs2.
Proof. unfold writes_of. apply bind_app. Qed.

Lemma closes_of_app effs1 effs2 :
  closes_of (effs1 ++ effs2) = closes_of effs1 ++ closes_of effs2.
Proof. unfold closes_of. apply bind_app. Qed.

(** One turn of the loop writes once to a session at another address and
    never closes anything, whether or not the write fails. *)
Lemma send_to_writes cfg env a payload c :
  writes_of (send_to cfg env a payload c) =
  if bool_decide (TCPAddr.String (Conn.RemoteAddr (Client.Conn c)) ≠ a)
  then [(Client.Conn c, payload)] else [].
Proof.
  unfold send_to. destruct (bool_decide _); [|done].
  by destruct (write_err _ _ _).
Qed.

Lemma send_to_closes cfg env a payload c :
  closes_of (send_to cfg env a payload c) = [].
Proof.
  unfold send_to. destruct (bool_decide _); [|done].
  by destruct (write_err _ _ _).
Qed.

Lemma bind_send_to_writes cfg env (a payload : string) (l : list Client.t) :
  writes_of (l ≫= send_to cfg env a payload) =
  l ≫= λ c,
    if bool_decide (TCPAddr.String (Conn.RemoteAddr (Client.Conn c)) ≠ a)
    then [(Client.Conn c, payload)] else [].
Proof.
  induction l as [|c l IH]; [done|].
  rewrite !bind_cons, writes_of_app, send_to_writes. by rewrite IH.
Qed.

Lemma bind_send_to_closes cfg env a payload (l : list Client.t) :
  closes_of (l ≫= send_to cfg env a payload) = [].
Proof.
  induction l as [|c l IH]; [done|].
  rewrite bind_cons, closes_of_app, send_to_closes. by rewrite IH.
Qed.

(** Sessions at other addresses each get the payload. *)
Lemma recipients_others (a payload : string) (l : list (string * Client.t)) :
  Forall (λ kc, TCPAddr.String (Conn.RemoteAddr (Client.Conn kc.2)) ≠ a) l →
  (l.*2 ≫= λ c,
     if bool_decide (TCPAddr.String (Conn.RemoteAddr (Client.Conn c)) ≠ a)
     then [(Client.Conn c, payload)] else []) =
  (λ kc, (Client.Conn kc.2, payload)) <$> l.
Proof.
  induction 1 as [|[k c] l Hne _ IH]; [done|].
  rewrite fmap_cons, bind_cons, IH. simpl in *.
  by rewrite bool_decide_true.
Qed.

(** The writes of a broadcast from the session at [a], in a registry where
    every session sits under its own address: one to each session except
    the one at [a], in the order the runtime picked. *)
Lemma broadcast_writes cfg env (cs : gmap string Client.t) a author
    (payload : string) :
  (∀ k c, cs !! k = Some c →
          TCPAddr.String (Conn.RemoteAddr (Client.Conn c)) = k) →
  cs !! a = Some author →
  writes_of (broadcast cfg env cs a payload) ≡ₚ
  (λ kc, (Client.Conn kc.2, payload)) <$> map_to_list (delete a cs).
Proof.
  intros Hk Hin. unfold broadcast. rewrite bind_send_to_writes.
  rewrite (range_perm env cs).
  rewrite <- (insert_id cs a author Hin) at 1.
  rewrite <- insert_delete_eq.
  rewrite map_to_list_insert by apply lookup_delete_eq.
  rewrite fmap_cons, bind_cons. simpl.
  rewrite bool_decide_false by (intros Hne; apply Hne; by apply Hk).
  simpl. rewrite recipients_others; [done|].
  apply Forall_forall. intros [k c] Hkc%elem_of_map_to_list.
  apply lookup_delete_Some in Hkc as [Hne Hc]. simpl.
  rewrite (Hk k c Hc). congruence.
Qed.

(** The writes of a broadcast from the address [a], in any registry: one
    to each session whose connection has another address, in the order the
    runtime picked. *)
Lemma writes_of_filter (a payload : string) (l : list Client.t) :
  (l ≫= λ c,
     if bool_decide (TCPAddr.String (Conn.RemoteAddr (Client.Conn c)) ≠ a)
     then [(Client.Conn c, payload)] else []) =
  (λ c, (Client.Conn c, payload)) <$>
  filter (λ c, TCPAddr.String (Conn.RemoteAddr (Client.Conn c)) ≠ a) l.
Proof.
  induction l as [|c l IH]; [done|].
  rewrite bind_cons, IH, filter_cons.
  destruct (decide (TCPAddr.String (Conn.RemoteAddr (Client.Conn c)) ≠ a))
    as [Hne|Heq].
  - by rewrite bool_decide_true.
  - by rewrite bool_decide_false.
Qed.

Lemma broadcast_writes_anywhere cfg env (cs : gmap string Client.t)
    (a payload : string) :
  writes_of (broadcast cfg env cs a payload) ≡ₚ
  (λ c, (Client.Conn c, payload)) <$>
  filter (λ c, TCPAddr.String (Conn.RemoteAddr (Client.Conn c)) ≠ a)
         (map_to_list cs).*2.
Proof.
  unfold broadcast. rewrite bind_send_to_writes, writes_of_filter.
  by rewrite (range_perm env cs).
Qed.

Lemma elem_of_writes_of c data effs :
  (c, data) ∈ writes_of effs ↔ Write c data ∈ effs.
Proof.
  unfold writes_of. rewrite list_elem_of_bind. split.
  - intros ([c' data'| |] & Hin & He); [|by apply elem_of_nil in Hin..].
    apply list_elem_of_singleton in Hin. by simplify_eq.
  - intros He. exists (Write c data). split; [apply list_elem_of_here|done].
Qed.

(** C5.  A valid message from a registered session, at least the minimum
    interval after its last accepted one, is accepted: whatever the strike
    count was it becomes 0, [LastMessage] becomes the current time, and the
    payload (the text, after the sender's name in legacy.go) is broadcast:
    it is written once to the connection of every registered session whose
    connection has another address than the sender's, nothing else is
    written and nothing is closed. *)
Theorem accepted_message_resets_strikes cfg env h msg author :
  Message.Type_ msg = NewMessage →
  clients h !! key msg = Some author →
  MessageRate * Second ≤ elapsed env author →
  ValidString (Message.Text msg) = true →
  named cfg msg →
  ∃ payload line author' effs,
    server_step cfg env h msg =
      Some (mkHub (<[key msg := author']> (clients h)) (bannedMfs h), effs) ∧
    effs = Log line ::
           broadcast cfg env (<[key msg := author']> (clients h))
                     (key msg) payload ∧
    Client.StrikeCount author' = 0 ∧
    Client.LastMessage author' = now env ∧
    Client.Conn author' = Client.Conn author ∧
    Client.Name author' = Client.Name author ∧
    match variant cfg with
    | MainGo => payload = Message.Text msg
    | LegacyGo => ∃ n, Message.Name msg = Some n ∧
                       payload = n +:+ ": " +:+ Message.Text msg
    end ∧
    writes_of effs ≡ₚ
      (λ c, (Client.Conn c, payload)) <$>
      filter (λ c, TCPAddr.String (Conn.RemoteAddr (Client.Conn c)) ≠ key msg)
             (map_to_list (<[key msg := author']> (clients h))).*2 ∧
    (∀ k c, clients h !! k = Some c →
            TCPAddr.String (Conn.RemoteAddr (Client.Conn c)) ≠ key msg →
            Write (Client.Conn c) payload ∈ effs) ∧
    (∀ c data, Write c data ∈ effs →
               data = payload ∧
               TCPAddr.String (Conn.RemoteAddr c) ≠ key msg ∧
               ∃ k s, clients h !! k = Some s ∧ Client.Conn s = c) ∧
    closes_of effs = [].
Proof.
  intros Htype Hin Hslow Hvalid Hnamed.
  destruct (payload_and_log_named cfg msg (key msg) Hnamed)
    as [[payload line] Hpl].
  set (author' := Client.mk (Client.Name author) (Client.Conn author)
                            (now env) 0).
  set (cs' := <[key msg := author']> (clients h)).
  exists payload, line, author',
         (Log line :: broadcast cfg env cs' (key msg) payload).
  rewrite (step_message cfg env h msg Htype).
  rewrite (on_message_accept cfg env h msg author payload line
             Hin Hslow Hvalid Hpl).
  cbv zeta. split; [reflexivity|].
  do 5 (split; [reflexivity|]).
  split; [exact (payload_carries_text cfg msg (key msg) payload line Hpl)|].
  pose proof (broadcast_writes_anywhere cfg env cs' (key msg) payload) as Hw.
  change (writes_of (Log line :: ?effs)) with (writes_of effs).
  split; [exact Hw|].
  assert (Hmem : ∀ c data,
    Write c data ∈ Log line :: broadcast cfg env cs' (key msg) payload ↔
    ∃ k s, cs' !! k = Some s ∧ c = Client.Conn s ∧ data = payload ∧
           TCPAddr.String (Conn.RemoteAddr (Client.Conn s)) ≠ key msg).
  { intros c data. rewrite <- elem_of_writes_of.
    change (writes_of (Log line :: ?effs)) with (writes_of effs).
    rewrite Hw, list_elem_of_fmap. split.
    - intros (s & [= -> ->] & [Hne Hs]%list_elem_of_filter).
      apply list_elem_of_fmap in Hs as ([k s'] & -> & Hks%elem_of_map_to_list).
      by exists k, s'.
    - intros (k & s & Hks & -> & -> & Hne). exists s. split; [done|].
      apply list_elem_of_filter. split; [done|].
      apply list_elem_of_fmap. exists (k, s).
      split; [done|by apply elem_of_map_to_list]. }
  split; [|split].
  - intros k c Hkc Hne. apply Hmem.
    destruct (decide (k = key msg)) as [->|Hk].
    + exists (key msg), author'. rewrite Hin in Hkc. injection Hkc as <-.
      split; [apply lookup_insert_eq|done].
    + exists k, c. split; [by unfold cs'; rewrite lookup_insert_ne|done].
  - intros c data (k & s & Hks & -> & -> & Hne)%Hmem.
    split; [done|]. split; [done|].
    destruct (decide (k = key msg)) as [->|Hk].
    + unfold cs' in Hks. rewrite lookup_insert_eq in Hks.
      injection Hks as <-. by exists (key msg), author.
    + unfold cs' in Hks. rewrite lookup_insert_ne in Hks by done.
      by exists k, s.
  - exact (bind_send_to_closes cfg env (key msg) payload _).
Qed.

Lemma accepted_message_witness :
  Message.Type_ (Scenario.says Scenario.A "ann" "hello") = NewMessage ∧
  clients Scenario.brink_of_three !!
    key (Scenario.says Scenario.A "ann" "hello")
    = Some (Scenario.session Scenario.A 0 10) ∧
  MessageRate * Second ≤
    elapsed (Scenario.env_at 1000000000) (Scenario.session Scenario.A 0 10) ∧
  ValidString (Message.Text (Scenario.says Scenario.A "ann" "hello")) = true ∧
  named Scenario.legacy_go (Scenario.says Scenario.A "ann" "hello") ∧
  ∃ h' effs author',
    server_step Scenario.legacy_go (Scenario.env_at 1000000000)
                Scenario.brink_of_three (Scenario.says Scenario.A "ann" "hello")
      = Some (h', effs) ∧
    clients h' !! "10.0.0.1:5000" = Some author' ∧
    Client.StrikeCount author' = 0 ∧
    Client.LastMessage author' = 1000000000 ∧
    Write Scenario.B "ann: hello" ∈ effs ∧
    Write Scenario.C "ann: hello" ∈ effs ∧
    (∀ data, Write Scenario.A data ∉ effs).
Proof.
  assert (H1 : Message.Type_ (Scenario.says Scenario.A "ann" "hello")
               = NewMessage) by reflexivity.
  assert (H2 : clients Scenario.brink_of_three !!
                 key (Scenario.says Scenario.A "ann" "hello")
               = Some (Scenario.session Scenario.A 0 10))
    by (vm_compute; reflexivity).
  assert (H3 : MessageRate * Second ≤
               elapsed (Scenario.env_at 1000000000)
                       (Scenario.session Scenario.A 0 10))
    by (vm_compute; discriminate).
  assert (H4 : ValidString (Message.Text (Scenario.says Scenario.A "ann" "hello"))
               = true) by (vm_compute; reflexivity).
  assert (H5 : named Scenario.legacy_go (Scenario.says Scenario.A "ann" "hello"))
    by (intros _; simpl; eauto).
  do 5 (split; [assumption|]).
  destruct (accepted_message_resets_strikes Scenario.legacy_go _ _ _ _
              H1 H2 H3 H4 H5)
    as (payload & line & author' & effs & Hstep & _ & Hn & Hlast & _ & _ &
        Hpay & _ & Hto & Hfrom & _).
  destruct Hpay as (n & [= <-] & ->).
  eexists _, effs, author'. split; [exact Hstep|]. simpl.
  split; [apply lookup_insert_eq|]. do 2 (split; [assumption|]).
  split; [|split].
  - apply (Hto "10.0.0.2:5000" (Scenario.session Scenario.B 0 0));
      [vm_compute; reflexivity | discriminate].
  - apply (Hto "10.0.0.3:5000" (Scenario.session Scenario.C 0 0));
      [vm_compute; reflexivity | discriminate].
  - intros data Hself. destruct (Hfrom _ _ Hself) as (_ & Hne & _).
    by apply Hne.
Defined.

(** C6.  In a reachable state, an accepted message is written once to the
    connection of every registered session except the sender's, and to no
    connection at the sender's address.  Whatever the writes return and
    whatever order the runtime visits the registry in, the same writes are
    attempted and the same state results: no connection is closed and no
    session other than the sender's is touched. *)
Theorem broadcast_reaches_the_others cfg env h msg author :
  reachable cfg h →
  Message.Type_ msg = NewMessage →
  clients h !! key msg = Some author →
  MessageRate * Second ≤ elapsed env author →
  ValidString (Message.Text msg) = true →
  named cfg msg →
  ∃ h' effs payload,
    server_step cfg env h msg = Some (h', effs) ∧
    writes_of effs ≡ₚ
      (λ kc, (Client.Conn kc.2, payload)) <$>
      map_to_list (delete (key msg) (clients h)) ∧
    (∀ c data, (c, data) ∈ writes_of effs →
               TCPAddr.String (Conn.RemoteAddr c) ≠ key msg) ∧
    (∀ data, (Message.Conn msg, data) ∉ writes_of effs) ∧
    closes_of effs = [] ∧
    dom (clients h') = dom (clients h) ∧
    (∀ k, k ≠ key msg → clients h' !! k = clients h !! k) ∧
    bannedMfs h' = bannedMfs h ∧
    ∀ env2, now env2 = now env →
      ∃ effs2, server_step cfg env2 h msg = Some (h', effs2) ∧
               writes_of effs2 ≡ₚ writes_of effs.
Proof.
  intros Hreach Htype Hin Hslow Hvalid Hnamed.
  pose proof (reachable_keyed cfg h Hreach) as Hk.
  destruct (payload_and_log_named cfg msg (key msg) Hnamed)
    as [[payload line] Hpl].
  set (author' := Client.mk (Client.Name author) (Client.Conn author)
                            (now env) 0).
  set (cs' := <[key msg := author']> (clients h)).
  assert (Hk' : ∀ k c, cs' !! k = Some c →
                  TCPAddr.String (Conn.RemoteAddr (Client.Conn c)) = k).
  { intros k c. unfold cs'. destruct (decide (key msg = k)) as [<-|Hne].
    - rewrite lookup_insert_eq. intros [= <-]. simpl. by apply Hk.
    - rewrite lookup_insert_ne by done. apply Hk. }
  assert (Hin' : cs' !! key msg = Some author') by apply lookup_insert_eq.
  assert (Hdel : delete (key msg) cs' = delete (key msg) (clients h))
    by apply delete_insert_eq.
  assert (Hw : ∀ e : Env,
    writes_of (Log line :: broadcast cfg e cs' (key msg) payload) ≡ₚ
    (λ kc, (Client.Conn kc.2, payload)) <$>
    map_to_list (delete (key msg) (clients h))).
  { intros e. rewrite <- Hdel.
    exact (broadcast_writes cfg e cs' (key msg) author' payload Hk' Hin'). }
  assert (Hstep : ∀ e : Env, now e = now env →
    server_step cfg e h msg =
    Some (mkHub cs' (bannedMfs h),
          Log line :: broadcast cfg e cs' (key msg) payload)).
  { intros e He. rewrite (step_message cfg e h msg Htype).
    rewrite (on_message_accept cfg e h msg author payload line Hin);
      [by rewrite He | by unfold elapsed in *; rewrite He | done | done]. }
  assert (Hfar : ∀ c data,
    (c, data) ∈ writes_of (Log line :: broadcast cfg env cs' (key msg) payload)
    → TCPAddr.String (Conn.RemoteAddr c) ≠ key msg).
  { intros c data. rewrite (Hw env).
    intros ([k s] & [= -> ->] & Hks%elem_of_map_to_list)%list_elem_of_fmap.
    apply lookup_delete_Some in Hks as [Hne Hs]. simpl.
    rewrite (Hk k s Hs). congruence. }
  eexists _, _, payload. split; [exact (Hstep env eq_refl)|].
  split; [exact (Hw env)|]. split; [exact Hfar|].
  split; [intros data Hself; by apply (Hfar _ _ Hself)|].
  split; [exact (bind_send_to_closes cfg env (key msg) payload _)|].
  simpl. split; [apply dom_insert_lookup_L; eauto|].
  split; [intros k Hne; unfold cs'; by rewrite lookup_insert_ne|].
  split; [reflexivity|].
  intros env2 Hclock. eexists. split; [exact (Hstep env2 Hclock)|].
  by rewrite (Hw env2), (Hw env).
Qed.

Lemma three_reachable : reachable Scenario.main_go Scenario.three.
Proof.
  apply (server_from_reachable Scenario.main_go Scenario.arrivals empty_hub
           Scenario.three
           (replicate 3 (Log ("Client [REDACTED] connected" +:+ LF)))).
  - constructor.
  - vm_compute. reflexivity.
Qed.

Lemma broadcast_witness :
  reachable Scenario.main_go Scenario.three ∧
  Message.Type_ (Scenario.says Scenario.A "a" "hello") = NewMessage ∧
  clients Scenario.three !! key (Scenario.says Scenario.A "a" "hello")
    = Some (Scenario.session Scenario.A 0 0) ∧
  MessageRate * Second ≤
    elapsed (Scenario.env_failing 2000000000) (Scenario.session Scenario.A 0 0) ∧
  ValidString (Message.Text (Scenario.says Scenario.A "a" "hello")) = true ∧
  named Scenario.main_go (Scenario.says Scenario.A "a" "hello") ∧
  ∃ h' effs,
    server_step Scenario.main_go (Scenario.env_failing 2000000000)
                Scenario.three (Scenario.says Scenario.A "a" "hello")
      = Some (h', effs) ∧
    writes_of effs ≡ₚ [(Scenario.C, "hello"); (Scenario.B, "hello")] ∧
    closes_of effs = [] ∧
    dom (clients h') = dom (clients Scenario.three).
Proof.
  assert (H1 : Message.Type_ (Scenario.says Scenario.A "a" "hello") = NewMessage)
    by reflexivity.
  assert (H2 : clients Scenario.three !! key (Scenario.says Scenario.A "a" "hello")
               = Some (Scenario.session Scenario.A 0 0))
    by (vm_compute; reflexivity).
  assert (H3 : MessageRate * Second ≤
               elapsed (Scenario.env_failing 2000000000)
                       (Scenario.session Scenario.A 0 0))
    by (vm_compute; discriminate).
  assert (H4 : ValidString (Message.Text (Scenario.says Scenario.A "a" "hello"))
               = true) by (vm_compute; reflexivity).
  assert (H5 : named Scenario.main_go (Scenario.says Scenario.A "a" "hello"))
    by (intros Hv; discriminate Hv).
  split; [exact three_reachable|].
  do 5 (split; [assumption|]).
  destruct (broadcast_reaches_the_others Scenario.main_go _ _ _ _
              three_reachable H1 H2 H3 H4 H5)
    as (h' & effs & payload & Hstep & Hw & _ & _ & Hc & Hdom & _).
  exists h', effs. split; [exact Hstep|]. split; [|by split].
  rewrite Hw.
  rewrite (step_message _ _ _ _ H1) in Hstep.
  assert (payload = "hello") as ->.
  { vm_compute in Hstep.
    injection Hstep as _ Heffs. rewrite <- Heffs in Hw.
    vm_compute in Hw. apply Permutation_length_2_inv in Hw as [Hw|Hw];
      congruence. }
  vm_compute. reflexivity.
Defined.

(** ** The privacy toggle *)

Lemma blank_logs_send_to cfg1 cfg2 env a payload (l : list Client.t) :
  map blank_log (l ≫= send_to cfg1 env a payload) =
  map blank_log (l ≫= send_to cfg2 env a payload).
Proof.
  induction l as [|c l IH]; [done|].
  rewrite !bind_cons, !map_app, IH. f_equal.
  unfold send_to. destruct (bool_decide _); [|done].
  by destruct (write_err _ _ _).
Qed.

Lemma blank_logs_connected cfg1 cfg2 env h msg :
  same_variant cfg1 cfg2 →
  blank_logs (on_connected cfg1 env h msg) =
  blank_logs (on_connected cfg2 env h msg).
Proof.
  unfold same_variant, on_connected, connected_log. cbv zeta. intros <-.
  destruct (bannedMfs h !! _) as [bannedAt|]; [destruct (Seconds_ge _ _)|];
    try done.
  all: destruct (variant cfg1); [done|];
       by destruct (Message.Name msg).
Qed.

Lemma blank_logs_message cfg1 cfg2 env h msg :
  same_variant cfg1 cfg2 →
  blank_logs (on_message cfg1 env h msg) =
  blank_logs (on_message cfg2 env h msg).
Proof.
  unfold same_variant, on_message, payload_and_log, broadcast. cbv zeta.
  intros <-.
  destruct (clients h !! _) as [author|]; [|done].
  destruct (Seconds_ge _ _); [destruct (ValidString _)|]; try done.
  destruct (variant cfg1); [|destruct (Message.Name msg); [|done]].
  all: simpl; do 3 f_equal; apply blank_logs_send_to.
Qed.

Lemma blank_logs_step cfg1 cfg2 env h msg :
  same_variant cfg1 cfg2 →
  blank_logs (server_step cfg1 env h msg) =
  blank_logs (server_step cfg2 env h msg).
Proof.
  intros Hv. unfold server_step.
  destruct (_ =? ClientConnected); [by apply blank_logs_connected|].
  destruct (_ =? ClientDisconnected); [done|].
  destruct (_ =? NewMessage); [by apply blank_logs_message|done].
Qed.

Lemma blank_logs_inv r1 r2 :
  blank_logs r1 = blank_logs r2 →
  match r1, r2 with
  | Some (h1, effs1), Some (h2, effs2) =>
    h1 = h2 ∧ map blank_log effs1 = map blank_log effs2
  | None, None => True
  | _, _ => False
  end.
Proof.
  destruct r1 as [[h1 effs1]|], r2 as [[h2 effs2]|]; simpl; try done.
  by intros [= -> ->].
Qed.

Lemma blank_logs_server_from cfg1 cfg2 inputs h :
  same_variant cfg1 cfg2 →
  blank_logs (server_from cfg1 h inputs) =
  blank_logs (server_from cfg2 h inputs).
Proof.
  intros Hv. revert h.
  induction inputs as [|[env msg] inputs IH]; intros h; [done|].
  simpl.
  pose proof (blank_logs_inv _ _ (blank_logs_step cfg1 cfg2 env h msg Hv))
    as Hstep.
  destruct (server_step cfg1 env h msg) as [[h1 effs1]|],
           (server_step cfg2 env h msg) as [[h2 effs2]|]; try done.
  destruct Hstep as [<- Heffs]. simpl.
  pose proof (blank_logs_inv _ _ (IH h1)) as Hrest.
  destruct (server_from cfg1 h1 inputs) as [[h3 effs3]|],
           (server_from cfg2 h1 inputs) as [[h4 effs4]|]; try done.
  destruct Hrest as [<- Heffs']. simpl.
  by rewrite !map_app, Heffs, Heffs'.
Qed.

(** C9.  For every sequence of messages the hub with [SafeMode] on and the
    hub with [SafeMode] off panic together or end in the same state having
    produced the same effects in the same order — the same bytes written
    to the same connections, the same connections closed — except for the
    text of the log lines. *)
Theorem SafeMode_changes_log_text_only v inputs :
  blank_logs (server (mkConfig v true) inputs) =
  blank_logs (server (mkConfig v false) inputs).
Proof. unfold server. by apply blank_logs_server_from. Qed.

(** The toggle does change what is logged. *)
Example SafeMode_changes_the_log :
  server (mkConfig MainGo true) Scenario.arrivals ≠
  server (mkConfig MainGo false) Scenario.arrivals.
Proof. vm_compute. discriminate. Qed.

(** ** The ban list *)

(** C10.  A step changes the ban list in two cases only: a
    [ClientConnected] message from a host whose ban has run out deletes that
    host's record, and a strike that takes the count above [StrikeLimit]
    writes the sender's host with the current time.  In particular a
    connection attempt rejected because the ban is still running leaves the
    record and its time as they were. *)
Theorem ban_list_frame cfg env h msg h' effs :
  server_step cfg env h msg = Some (h', effs) →
  (bannedMfs h' = bannedMfs h ∨
   (Message.Type_ msg = ClientConnected ∧
    ∃ bannedAt : Time,
      bannedMfs h !! host msg = Some bannedAt ∧
      bannedAt + BanLimit * Second ≤ now env ∧
      bannedMfs h' = delete (host msg) (bannedMfs h)) ∨
   (Message.Type_ msg = NewMessage ∧
    ∃ author,
      clients h !! key msg = Some author ∧
      (elapsed env author < MessageRate * Second ∨
       ValidString (Message.Text msg) = false) ∧
      StrikeLimit < struck author ∧
      bannedMfs h' = <[host msg := now env]> (bannedMfs h))) ∧
  (Message.Type_ msg = ClientConnected →
   ∀ bannedAt : Time,
     bannedMfs h !! host msg = Some bannedAt →
     now env < bannedAt + BanLimit * Second →
     bannedMfs h' = bannedMfs h ∧ bannedMfs h' !! host msg = Some bannedAt).
Proof.
  intros Hstep. split.
  - destruct (decide (Message.Type_ msg = ClientConnected)) as [Hc|Hc];
      [|destruct (decide (Message.Type_ msg = ClientDisconnected)) as [Hd|Hd];
        [|destruct (decide (Message.Type_ msg = NewMessage)) as [Hm|Hm]]].
    + rewrite (step_connected _ _ _ _ Hc) in Hstep.
      unfold on_connected, host in *. cbv zeta in Hstep.
      destruct (bannedMfs h !! _) as [bannedAt|] eqn:Hban.
      * destruct (Seconds_ge _ _) eqn:Hexp.
        -- right. left. split; [done|]. exists bannedAt.
           split; [done|].
           apply Seconds_ge_true, (Sub_ge _ _ _ BanLimit_duration) in Hexp.
           split; [done|].
           destruct (connected_log _ _ _); [|done].
           by injection Hstep as <- _.
        -- left. by injection Hstep as <- _.
      * left. destruct (connected_log _ _ _); [|done].
        by injection Hstep as <- _.
    + rewrite (step_disconnected _ _ _ _ Hd) in Hstep.
      left. by injection Hstep as <- _.
    + rewrite (step_message _ _ _ _ Hm) in Hstep.
      destruct (clients h !! key msg) as [author|] eqn:Hin.
      2:{ rewrite (on_message_stranger cfg env h msg Hin) in Hstep.
          left. by injection Hstep as <- _. }
      destruct (Z_lt_le_dec (elapsed env author) (MessageRate * Second))
        as [Hfast|Hslow];
        [|destruct (ValidString (Message.Text msg)) eqn:Hvalid].
      1,3: assert (Hwhy : elapsed env author < MessageRate * Second ∨
                          ValidString (Message.Text msg) = false)
             by (first [by left | by right]);
           rewrite (on_message_strike cfg env h msg author Hin Hwhy) in Hstep;
           injection Hstep as Hs;
           replace h' with (strike env h (key msg) (host msg) author).1
             by (by rewrite Hs);
           destruct (Z_lt_le_dec StrikeLimit (struck author)) as [Hlim|Hlim];
           [right; right; split; [done|]; exists author;
            destruct (strike_banned env h (key msg) (host msg) author Hlim)
              as [Hb _];
            split; [done|split; [first [exact Hwhy | by right]|
                                 split; [done|exact Hb]]]
           |left;
            by destruct (strike_spared env h (key msg) (host msg) author Hlim)].
      left. unfold on_message in Hstep. cbv zeta in Hstep.
      fold (key msg) in Hstep. rewrite Hin in Hstep.
      fold (elapsed env author) in Hstep.
      apply Seconds_ge_true in Hslow. rewrite Hslow, Hvalid in Hstep.
      destruct (payload_and_log _ _ _) as [[payload line]|]; [|done].
      by injection Hstep as <- _.
    + rewrite (step_other _ _ _ _ Hc Hd Hm) in Hstep.
      left. by injection Hstep as <- _.
  - intros Hc bannedAt Hban Hearly.
    rewrite (step_connected _ _ _ _ Hc) in Hstep.
    rewrite (on_connected_rejected cfg env h msg bannedAt Hban Hearly) in Hstep.
    by injection Hstep as <- _.
Qed.

Lemma ban_list_frame_witness :
  server_step Scenario.legacy_go (Scenario.env_at 3500000000) Scenario.banned_A
              (Scenario.connected Scenario.A "a")
    = Some (Scenario.banned_A,
            [Write Scenario.A
               (rejection_notice (Scenario.env_at 3500000000) Second);
             Close Scenario.A]) ∧
  bannedMfs Scenario.banned_A !! "10.0.0.1" = Some Second.
Proof.
  assert (H1 : server_step Scenario.legacy_go (Scenario.env_at 3500000000)
                 Scenario.banned_A (Scenario.connected Scenario.A "a")
               = Some (Scenario.banned_A,
                       [Write Scenario.A
                          (rejection_notice (Scenario.env_at 3500000000) Second);
                        Close Scenario.A]))
    by (vm_compute; reflexivity).
  split; [assumption|].
  destruct (ban_list_frame _ _ _ _ _ _ H1) as [_ Hrej].
  apply (Hrej eq_refl Second); vm_compute; reflexivity.
Defined.

(** ** Bans and sessions *)

(** C3, as stated, fails.  A connects under main.go and sends eleven
    messages one millisecond apart: the eleventh bans host 10.0.0.1 and
    closes A, and the state it leaves has both the ban, which has ten
    seconds to run, and A's session. *)
Lemma banned_host_keeps_its_session :
  server Scenario.main_go Scenario.flood
    = Some (Scenario.flooded,
            [Log ("Client [REDACTED] connected" +:+ LF); Close Scenario.A]) ∧
  reachable Scenario.main_go Scenario.flooded ∧
  clients Scenario.flooded !! "10.0.0.1:5000"
    = Some (Scenario.session Scenario.A 0 11) ∧
  bannedMfs Scenario.flooded !! "10.0.0.1" = Some 11000000 ∧
  ¬ no_banned_session 11000000 Scenario.flooded.
Proof.
  assert (Hrun : server Scenario.main_go Scenario.flood
                 = Some (Scenario.flooded,
                         [Log ("Client [REDACTED] connected" +:+ LF);
                          Close Scenario.A]))
    by (vm_compute; reflexivity).
  assert (Hs : clients Scenario.flooded !! "10.0.0.1:5000"
               = Some (Scenario.session Scenario.A 0 11))
    by (vm_compute; reflexivity).
  assert (Hb : bannedMfs Scenario.flooded !! "10.0.0.1" = Some 11000000)
    by (vm_compute; reflexivity).
  split; [exact Hrun|]. split.
  - eapply server_from_reachable; [apply reachable_init | exact Hrun].
  - split; [exact Hs|]. split; [exact Hb|].
    intros Hinv. specialize (Hinv _ _ _ Hs Hb). vm_compute in Hinv.
    by apply Hinv.
Qed.

(** C3, amended.  A strike that takes the count above [StrikeLimit] closes
    the session's connection and records the ban, and removes no session
    from the registry.  From the state it leaves, while the ban is running
    every [ClientConnected] message from that host is turned away with the
    state unchanged, so the host gains no session; and the
    [ClientDisconnected] message for the offender's address removes its
    session, leaving the ban in place. *)
Theorem ban_closes_and_disconnect_clears cfg env h msg author :
  Message.Type_ msg = NewMessage →
  clients h !! key msg = Some author →
  elapsed env author < MessageRate * Second ∨
  ValidString (Message.Text msg) = false →
  StrikeLimit < struck author →
  ∃ h1,
    server_step cfg env h msg = Some (h1, [Close (Client.Conn author)]) ∧
    bannedMfs h1 !! host msg = Some (now env) ∧
    dom (clients h1) = dom (clients h) ∧
    (∀ env2 again,
       Message.Type_ again = ClientConnected →
       host again = host msg →
       now env2 < now env + BanLimit * Second →
       server_step cfg env2 h1 again =
         Some (h1, [Write (Message.Conn again)
                          (rejection_notice env2 (now env));
                    Close (Message.Conn again)])) ∧
    (∀ env2 bye,
       Message.Type_ bye = ClientDisconnected →
       key bye = key msg →
       ∃ h2 effs,
         server_step cfg env2 h1 bye = Some (h2, effs) ∧
         clients h2 !! key msg = None ∧
         bannedMfs h2 = bannedMfs h1).
Proof.
  intros Htype Hin Hwhy Hlim.
  rewrite (step_message cfg env h msg Htype).
  rewrite (on_message_strike cfg env h msg author Hin Hwhy).
  pose proof (strike_clients env h (key msg) (host msg) author) as Hcl.
  destruct (strike_banned env h (key msg) (host msg) author Hlim)
    as [Hbans Heffs].
  destruct (strike env h (key msg) (host msg) author) as [h1 effs].
  simpl in Hcl, Hbans, Heffs. subst effs.
  assert (Hrec : bannedMfs h1 !! host msg = Some (now env))
    by (rewrite Hbans; apply lookup_insert_eq).
  exists h1. split; [reflexivity|]. split; [exact Hrec|].
  split; [rewrite Hcl; apply dom_insert_lookup_L; eauto|]. split.
  - intros env2 again Hc Hhost Hearly.
    rewrite (step_connected cfg env2 h1 again Hc).
    apply on_connected_rejected; [by rewrite Hhost | exact Hearly].
  - intros env2 bye Hd Hkey.
    rewrite (step_disconnected cfg env2 h1 bye Hd).
    unfold on_disconnected. fold (key bye). rewrite Hkey.
    eexists _, _. split; [reflexivity|]. simpl.
    split; [apply lookup_delete_eq | reflexivity].
Qed.

Lemma ban_then_disconnect_witness :
  Message.Type_ (Scenario.says Scenario.A "a" Scenario.invalid_text)
    = NewMessage ∧
  clients Scenario.on_the_brink !!
    key (Scenario.says Scenario.A "a" Scenario.invalid_text)
    = Some (Scenario.session Scenario.A 0 10) ∧
  (elapsed (Scenario.env_at 5000000000) (Scenario.session Scenario.A 0 10)
     < MessageRate * Second ∨
   ValidString (Message.Text (Scenario.says Scenario.A "a" Scenario.invalid_text))
     = false) ∧
  StrikeLimit < struck (Scenario.session Scenario.A 0 10) ∧
  ∃ h1 h2 effs,
    server_step Scenario.main_go (Scenario.env_at 5000000000)
                Scenario.on_the_brink
                (Scenario.says Scenario.A "a" Scenario.invalid_text)
      = Some (h1, [Close Scenario.A]) ∧
    server_step Scenario.main_go (Scenario.env_at 5000000001) h1
                (Scenario.disconnected Scenario.A) = Some (h2, effs) ∧
    clients h2 !! "10.0.0.1:5000" = None ∧
    bannedMfs h2 !! "10.0.0.1" = Some 5000000000.
Proof.
  assert (H1 : Message.Type_ (Scenario.says Scenario.A "a" Scenario.invalid_text)
               = NewMessage) by reflexivity.
  assert (H2 : clients Scenario.on_the_brink !!
                 key (Scenario.says Scenario.A "a" Scenario.invalid_text)
               = Some (Scenario.session Scenario.A 0 10))
    by (vm_compute; reflexivity).
  assert (H3 : elapsed (Scenario.env_at 5000000000)
                 (Scenario.session Scenario.A 0 10) < MessageRate * Second ∨
               ValidString (Message.Text
                   (Scenario.says Scenario.A "a" Scenario.invalid_text)) = false)
    by (right; vm_compute; reflexivity).
  assert (H4 : StrikeLimit < struck (Scenario.session Scenario.A 0 10))
    by (vm_compute; reflexivity).
  do 4 (split; [assumption|]).
  destruct (ban_closes_and_disconnect_clears Scenario.main_go _ _ _ _
              H1 H2 H3 H4) as (h1 & Hstep & Hrec & _ & _ & Hbye).
  destruct (Hbye (Scenario.env_at 5000000001)
                 (Scenario.disconnected Scenario.A) eq_refl eq_refl)
    as (h2 & effs & Hstep2 & Hgone & Hbans).
  exists h1, h2, effs. split; [exact Hstep|]. split; [exact Hstep2|].
  split; [exact Hgone|]. rewrite Hbans. exact Hrec.
Defined.

(** ** Admission of a host that is not banned *)

(** The name a session is given: the message's in legacy.go, none in
    main.go. *)
Lemma on_connected_fresh cfg env h msg line :
  bannedMfs h !! host msg = None →
  connected_log cfg (Message.Name msg) (host msg) = Some line →
  on_connected cfg env h msg =
    Some (mkHub (<[key msg := Client.mk (match variant cfg with
                                         | MainGo => None
                                         | LegacyGo => Message.Name msg
                                         end)
                                        (Message.Conn msg) (now' env) 0]>
                   (clients h))
                (bannedMfs h),
          [Log line]).
Proof. unfold on_connected, host, key. cbv zeta. by intros -> ->. Qed.

(** X1.  A [ClientConnected] message from a host with no ban record is
    always admitted: the session stored under the connection's address,
    replacing whatever was there, wraps that connection, has no strikes and
    has the second clock reading as [LastMessage]; the other sessions and
    the ban list are untouched and the only effect is a log line. *)
Theorem admission_without_ban cfg env h msg :
  Message.Type_ msg = ClientConnected →
  bannedMfs h !! host msg = None →
  named cfg msg →
  ∃ h' line session,
    server_step cfg env h msg = Some (h', [Log line]) ∧
    clients h' = <[key msg := session]> (clients h) ∧
    Client.Conn session = Message.Conn msg ∧
    Client.StrikeCount session = 0 ∧
    Client.LastMessage session = now' env ∧
    bannedMfs h' = bannedMfs h.
Proof.
  intros Htype Hfree Hnamed.
  destruct (connected_log_named cfg msg (host msg) Hnamed) as [line Hline].
  rewrite (step_connected cfg env h msg Htype).
  rewrite (on_connected_fresh cfg env h msg line Hfree Hline).
  eexists _, line, (Client.mk _ _ _ _). by repeat split.
Qed.

Lemma admission_witness :
  Message.Type_ (Scenario.connected Scenario.B "bob") = ClientConnected ∧
  bannedMfs Scenario.banned_A !! host (Scenario.connected Scenario.B "bob")
    = None ∧
  named Scenario.legacy_go (Scenario.connected Scenario.B "bob") ∧
  ∃ h' effs,
    server_step Scenario.legacy_go (Scenario.env_at 7) Scenario.banned_A
                (Scenario.connected Scenario.B "bob") = Some (h', effs) ∧
    is_Some (clients h' !! "10.0.0.2:5000") ∧
    bannedMfs h' = bannedMfs Scenario.banned_A.
Proof.
  assert (H1 : Message.Type_ (Scenario.connected Scenario.B "bob")
               = ClientConnected) by reflexivity.
  assert (H2 : bannedMfs Scenario.banned_A !!
                 host (Scenario.connected Scenario.B "bob") = None)
    by (vm_compute; reflexivity).
  assert (H3 : named Scenario.legacy_go (Scenario.connected Scenario.B "bob"))
    by (intros _; simpl; eauto).
  do 3 (split; [assumption|]).
  destruct (admission_without_ban Scenario.legacy_go (Scenario.env_at 7)
              _ _ H1 H2 H3)
    as (h' & line & session & Hstep & Hcl & _ & _ & _ & Hbans).
  exists h', [Log line]. split; [exact Hstep|]. split; [|exact Hbans].
  rewrite Hcl. exists session. apply lookup_insert_eq.
Defined.

(** X2.  Connecting and disconnecting undo each other: from a state with no
    session at the connection's address and no ban record for its host, a
    [ClientConnected] message followed by the [ClientDisconnected] message
    for the same address gives back the state the hub started from. *)
Theorem connect_then_disconnect_restores cfg env1 env2 h hello bye :
  Message.Type_ hello = ClientConnected →
  Message.Type_ bye = ClientDisconnected →
  key bye = key hello →
  clients h !! key hello = None →
  bannedMfs h !! host hello = None →
  named cfg hello →
  ∃ effs, server_from cfg h [(env1, hello); (env2, bye)] = Some (h, effs).
Proof.
  intros Hc Hd Hkey Hnew Hfree Hnamed.
  destruct (connected_log_named cfg hello (host hello) Hnamed) as [line Hline].
  simpl. rewrite (step_connected cfg env1 h hello Hc).
  rewrite (on_connected_fresh cfg env1 h hello line Hfree Hline). simpl.
  rewrite (step_disconnected cfg env2 _ bye Hd).
  unfold on_disconnected. fold (key bye). rewrite Hkey. simpl.
  rewrite delete_insert_eq, delete_id by done.
  destruct h. simpl. eauto.
Qed.

Lemma connect_then_disconnect_witness :
  Message.Type_ (Scenario.connected Scenario.A "a") = ClientConnected ∧
  Message.Type_ (Scenario.disconnected Scenario.A) = ClientDisconnected ∧
  key (Scenario.disconnected Scenario.A) = key (Scenario.connected Scenario.A "a") ∧
  clients empty_hub !! key (Scenario.connected Scenario.A "a") = None ∧
  bannedMfs empty_hub !! host (Scenario.connected Scenario.A "a") = None ∧
  named Scenario.main_go (Scenario.connected Scenario.A "a") ∧
  ∃ effs,
    server_from Scenario.main_go empty_hub
      [(Scenario.env_at 1, Scenario.connected Scenario.A "a");
       (Scenario.env_at 2, Scenario.disconnected Scenario.A)]
    = Some (empty_hub, effs).
Proof.
  assert (H6 : named Scenario.main_go (Scenario.connected Scenario.A "a"))
    by (intros Hv; discriminate Hv).
  do 5 (split; [reflexivity|]). split; [exact H6|].
  exact (connect_then_disconnect_restores Scenario.main_go
           (Scenario.env_at 1) (Scenario.env_at 2) empty_hub
           (Scenario.connected Scenario.A "a") (Scenario.disconnected Scenario.A)
           eq_refl eq_refl eq_refl eq_refl eq_refl H6).
Defined.

(** X3.  [LastMessage] starts at the time of admission, so a first message
    sent less than the minimum interval after it is a strike, valid or not:
    the session is left with one strike and its [LastMessage] unchanged,
    nothing is written and nothing is closed. *)
Theorem first_message_too_soon_is_a_strike cfg env1 env2 h hello msg :
  Message.Type_ hello = ClientConnected →
  bannedMfs h !! host hello = None →
  named cfg hello →
  Message.Type_ msg = NewMessage →
  key msg = key hello →
  now env2 < now' env1 + MessageRate * Second →
  ∃ h' line session,
    server_from cfg h [(env1, hello); (env2, msg)] = Some (h', [Log line]) ∧
    clients h' !! key msg = Some session ∧
    Client.StrikeCount session = 1 ∧
    Client.LastMessage session = now' env1 ∧
    bannedMfs h' = bannedMfs h.
Proof.
  intros Hc Hfree Hnamed Hm Hkey Hsoon.
  destruct (connected_log_named cfg hello (host hello) Hnamed) as [line Hline].
  simpl. rewrite (step_connected cfg env1 h hello Hc).
  rewrite (on_connected_fresh cfg env1 h hello line Hfree Hline). simpl.
  rewrite (step_message cfg env2 _ msg Hm).
  set (fresh := Client.mk _ (Message.Conn hello) (now' env1) 0).
  set (h1 := mkHub _ _).
  assert (Hin : clients h1 !! key msg = Some fresh)
    by (rewrite Hkey; apply lookup_insert_eq).
  assert (Hfast : elapsed env2 fresh < MessageRate * Second)
    by (by apply (Sub_lt _ _ _ MessageRate_duration)).
  rewrite (on_message_strike cfg env2 h1 msg fresh Hin (or_introl Hfast)).
  pose proof (strike_clients env2 h1 (key msg) (host msg) fresh) as Hcl.
  assert (Hlim : struck fresh ≤ StrikeLimit) by (vm_compute; discriminate).
  destruct (strike_spared env2 h1 (key msg) (host msg) fresh Hlim)
    as [Hbans Heffs].
  destruct (strike env2 h1 (key msg) (host msg) fresh) as [h' effs].
  simpl in *. subst effs.
  eexists h', line, (Client.mk _ _ _ _). split; [reflexivity|].
  rewrite Hcl, lookup_insert_eq. by repeat split.
Qed.

Lemma first_message_witness :
  Message.Type_ (Scenario.connected Scenario.A "a") = ClientConnected ∧
  bannedMfs empty_hub !! host (Scenario.connected Scenario.A "a") = None ∧
  named Scenario.main_go (Scenario.connected Scenario.A "a") ∧
  Message.Type_ (Scenario.says Scenario.A "a" "hi") = NewMessage ∧
  key (Scenario.says Scenario.A "a" "hi")
    = key (Scenario.connected Scenario.A "a") ∧
  now (Scenario.env_at 200000000)
    < now' (Scenario.env_at 0) + MessageRate * Second ∧
  ∃ h' effs session,
    server_from Scenario.main_go empty_hub
      [(Scenario.env_at 0, Scenario.connected Scenario.A "a");
       (Scenario.env_at 200000000, Scenario.says Scenario.A "a" "hi")]
    = Some (h', effs) ∧
    clients h' !! "10.0.0.1:5000" = Some session ∧
    Client.StrikeCount session = 1.
Proof.
  assert (H3 : named Scenario.main_go (Scenario.connected Scenario.A "a"))
    by (intros Hv; discriminate Hv).
  assert (H6 : now (Scenario.env_at 200000000)
               < now' (Scenario.env_at 0) + MessageRate * Second)
    by (vm_compute; reflexivity).
  do 2 (split; [reflexivity|]). split; [exact H3|].
  do 2 (split; [reflexivity|]). split; [exact H6|].
  destruct (first_message_too_soon_is_a_strike Scenario.main_go
              (Scenario.env_at 0) (Scenario.env_at 200000000) empty_hub
              (Scenario.connected Scenario.A "a")
              (Scenario.says Scenario.A "a" "hi")
              eq_refl eq_refl H3 eq_refl eq_refl H6)
    as (h' & line & session & Hrun & Hin & Hn & _).
  exists h', [Log line], session. by repeat split.
Defined.

(** ** Runs of strikes *)

Lemma server_from_app cfg h inputs1 inputs2 :
  server_from cfg h (inputs1 ++ inputs2) =
  match server_from cfg h inputs1 with
  | Some (h1, effs1) =>
    match server_from cfg h1 inputs2 with
    | Some (h2, effs2) => Some (h2, effs1 ++ effs2)
    | None => None
    end
  | None => None
  end.
Proof.
  revert h. induction inputs1 as [|[env msg] inputs1 IH]; intros h.
  - simpl. by destruct (server_from cfg h inputs2) as [[h2 effs2]|].
  - simpl. destruct (server_step cfg env h msg) as [[h1 effs1]|]; [|done].
    simpl. rewrite IH.
    destruct (server_from cfg h1 inputs1) as [[h2 effs2]|]; [|done]. simpl.
    destruct (server_from cfg h2 inputs2) as [[h3 effs3]|]; [|done]. simpl.
    by rewrite app_assoc.
Qed.

Lemma strike_spared_eq env h k ip author :
  int_min ≤ Client.StrikeCount author →
  Client.StrikeCount author + 1 ≤ StrikeLimit →
  strike env h k ip author =
    (mkHub (<[k := Client.mk (Client.Name author) (Client.Conn author)
                             (Client.LastMessage author)
                             (Client.StrikeCount author + 1)]> (clients h))
           (bannedMfs h), []).
Proof.
  intros Hlo Hhi. unfold strike. simpl.
  rewrite int_wrap_id
    by (unfold int_min, int_max, StrikeLimit in *; lia).
  apply Z.ltb_ge in Hhi. by rewrite Hhi.
Qed.

Lemma strike_banned_eq env h k ip author :
  int_min ≤ Client.StrikeCount author →
  Client.StrikeCount author = StrikeLimit →
  strike env h k ip author =
    (mkHub (<[k := Client.mk (Client.Name author) (Client.Conn author)
                             (Client.LastMessage author)
                             (StrikeLimit + 1)]> (clients h))
           (<[ip := now env]> (bannedMfs h)),
     [Close (Client.Conn author)]).
Proof.
  intros Hlo Hat. unfold strike. simpl. rewrite Hat.
  by rewrite int_wrap_id by (vm_compute; split; discriminate).
Qed.

Lemma strikes_at_step cfg h k author input :
  clients h !! k = Some author →
  strikes_at k (Client.LastMessage author) input →
  server_step cfg input.1 h input.2 =
    Some (strike input.1 h k (host input.2) author).
Proof.
  intros Hin (Htype & Hkey & Hwhy).
  rewrite (step_message cfg _ h _ Htype). subst k.
  by apply on_message_strike.
Qed.

Lemma strike_run cfg h k author inputs :
  clients h !! k = Some author →
  Forall (strikes_at k (Client.LastMessage author)) inputs →
  int_min ≤ Client.StrikeCount author →
  Client.StrikeCount author + Z.of_nat (length inputs) ≤ StrikeLimit →
  server_from cfg h inputs =
    Some (mkHub (<[k := Client.mk (Client.Name author) (Client.Conn author)
                            (Client.LastMessage author)
                            (Client.StrikeCount author +
                             Z.of_nat (length inputs))]> (clients h))
                (bannedMfs h),
          []).
Proof.
  intros Hin Hall. revert h author Hin Hall.
  induction inputs as [|[env msg] inputs IH]; intros h author Hin Hall Hlo Hhi.
  - simpl. rewrite Z.add_0_r. destruct author, h. simpl in *.
    by rewrite insert_id.
  - apply Forall_cons in Hall as [Hone Hall].
    rewrite length_cons, Nat2Z.inj_succ in Hhi |- *.
    pose proof (strikes_at_step cfg h k author (env, msg) Hin Hone) as Hstep.
    simpl in Hstep. simpl server_from. rewrite Hstep. simpl.
    rewrite strike_spared_eq by lia.
    set (author1 := Client.mk _ _ _ (Client.StrikeCount author + 1)).
    rewrite (IH (mkHub (<[k := author1]> (clients h)) (bannedMfs h)) author1);
      [| apply lookup_insert_eq | exact Hall | simpl; lia | simpl; lia].
    simpl. rewrite insert_insert_eq.
    by replace (Client.StrikeCount author + 1 + Z.of_nat (length inputs))
      with (Client.StrikeCount author + Z.succ (Z.of_nat (length inputs)))
      by lia.
Qed.

(** X4.  Strikes add up silently as long as the count stays within
    [StrikeLimit]: after any run of messages from one session that are each
    too fast or not valid text, the session has one more strike per message
    and is otherwise as it was, the ban list is unchanged, and the hub has
    written nothing, closed nothing and logged nothing. *)
Theorem strikes_accumulate cfg h k author inputs :
  clients h !! k = Some author →
  Forall (strikes_at k (Client.LastMessage author)) inputs →
  int_min ≤ Client.StrikeCount author →
  Client.StrikeCount author + Z.of_nat (length inputs) ≤ StrikeLimit →
  server_from cfg h inputs =
    Some (mkHub (<[k := Client.mk (Client.Name author) (Client.Conn author)
                            (Client.LastMessage author)
                            (Client.StrikeCount author +
                             Z.of_nat (length inputs))]> (clients h))
                (bannedMfs h),
          []).
Proof. apply strike_run. Qed.

Ltac strikes_now :=
  repeat (apply Forall_cons; split;
          [split; [reflexivity|split; [reflexivity|left; vm_compute; reflexivity]]|]);
  apply Forall_nil_2.

Lemma strikes_accumulate_witness :
  clients Scenario.three !! "10.0.0.1:5000"
    = Some (Scenario.session Scenario.A 0 0) ∧
  Forall (strikes_at "10.0.0.1:5000"
            (Client.LastMessage (Scenario.session Scenario.A 0 0)))
         Lifecycle.ten_fast ∧
  int_min ≤ Client.StrikeCount (Scenario.session Scenario.A 0 0) ∧
  Client.StrikeCount (Scenario.session Scenario.A 0 0) +
    Z.of_nat (length Lifecycle.ten_fast) ≤ StrikeLimit ∧
  ∃ h',
    server_from Scenario.main_go Scenario.three Lifecycle.ten_fast
      = Some (h', []) ∧
    clients h' !! "10.0.0.1:5000" = Some (Scenario.session Scenario.A 0 10) ∧
    bannedMfs h' = ∅.
Proof.
  assert (H1 : clients Scenario.three !! "10.0.0.1:5000"
               = Some (Scenario.session Scenario.A 0 0))
    by (vm_compute; reflexivity).
  assert (H2 : Forall (strikes_at "10.0.0.1:5000"
                         (Client.LastMessage (Scenario.session Scenario.A 0 0)))
                      Lifecycle.ten_fast)
    by (unfold Lifecycle.ten_fast; simpl replicate; strikes_now).
  assert (H3 : int_min ≤ Client.StrikeCount (Scenario.session Scenario.A 0 0))
    by (vm_compute; discriminate).
  assert (H4 : Client.StrikeCount (Scenario.session Scenario.A 0 0) +
               Z.of_nat (length Lifecycle.ten_fast) ≤ StrikeLimit)
    by (vm_compute; discriminate).
  do 4 (split; [assumption|]).
  eexists. split.
  - exact (strikes_accumulate Scenario.main_go _ _ _ _ H1 H2 H3 H4).
  - simpl. split; [apply lookup_insert_eq | reflexivity].
Defined.

(** X5.  The ban falls on the strike that takes the count to
    [StrikeLimit + 1] and on no earlier one: when a run of strikes brings a
    session exactly to the limit and one more follows, the whole run
    produces a single effect, the closing of the session's connection, and
    a single change to the ban list, the record of the last message's host
    at the time of that message. *)
Theorem ban_falls_on_the_strike_after_the_limit cfg h k author inputs env msg :
  clients h !! k = Some author →
  Forall (strikes_at k (Client.LastMessage author)) (inputs ++ [(env, msg)]) →
  int_min ≤ Client.StrikeCount author →
  Client.StrikeCount author + Z.of_nat (length inputs) = StrikeLimit →
  server_from cfg h (inputs ++ [(env, msg)]) =
    Some (mkHub (<[k := Client.mk (Client.Name author) (Client.Conn author)
                            (Client.LastMessage author) (StrikeLimit + 1)]>
                   (clients h))
                (<[host msg := now env]> (bannedMfs h)),
          [Close (Client.Conn author)]).
Proof.
  intros Hin Hall Hlo Hat.
  apply Forall_app in Hall as [Hall Hlast].
  apply Forall_cons in Hlast as [Hlast _].
  rewrite server_from_app.
  rewrite (strike_run cfg h k author inputs Hin Hall Hlo) by lia.
  rewrite Hat.
  set (author1 := Client.mk _ _ _ StrikeLimit).
  set (h1 := mkHub _ _).
  assert (Hin1 : clients h1 !! k = Some author1) by apply lookup_insert_eq.
  pose proof (strikes_at_step cfg h1 k author1 (env, msg) Hin1 Hlast) as Hstep.
  simpl in Hstep.
  rewrite (strike_banned_eq env h1 k (host msg) author1) in Hstep;
    [|vm_compute; discriminate|reflexivity].
  simpl server_from. rewrite Hstep. simpl.
  by rewrite insert_insert_eq.
Qed.

Lemma ban_after_the_limit_witness :
  clients Scenario.three !! "10.0.0.1:5000"
    = Some (Scenario.session Scenario.A 0 0) ∧
  Forall (strikes_at "10.0.0.1:5000"
            (Client.LastMessage (Scenario.session Scenario.A 0 0)))
         (Lifecycle.ten_fast ++
          [(Scenario.env_at 2000, Scenario.says Scenario.A "a" "y")]) ∧
  int_min ≤ Client.StrikeCount (Scenario.session Scenario.A 0 0) ∧
  Client.StrikeCount (Scenario.session Scenario.A 0 0) +
    Z.of_nat (length Lifecycle.ten_fast) = StrikeLimit ∧
  ∃ h',
    server_from Scenario.main_go Scenario.three
      (Lifecycle.ten_fast ++
       [(Scenario.env_at 2000, Scenario.says Scenario.A "a" "y")])
      = Some (h', [Close Scenario.A]) ∧
    bannedMfs h' !! "10.0.0.1" = Some 2000.
Proof.
  assert (H1 : clients Scenario.three !! "10.0.0.1:5000"
               = Some (Scenario.session Scenario.A 0 0))
    by (vm_compute; reflexivity).
  assert (H2 : Forall (strikes_at "10.0.0.1:5000"
                         (Client.LastMessage (Scenario.session Scenario.A 0 0)))
                      (Lifecycle.ten_fast ++
                       [(Scenario.env_at 2000,
                         Scenario.says Scenario.A "a" "y")]))
    by (unfold Lifecycle.ten_fast; simpl replicate; simpl app; strikes_now).
  assert (H3 : int_min ≤ Client.StrikeCount (Scenario.session Scenario.A 0 0))
    by (vm_compute; discriminate).
  assert (H4 : Client.StrikeCount (Scenario.session Scenario.A 0 0) +
               Z.of_nat (length Lifecycle.ten_fast) = StrikeLimit)
    by (vm_compute; reflexivity).
  do 4 (split; [assumption|]).
  eexists. split.
  - exact (ban_falls_on_the_strike_after_the_limit Scenario.main_go
             _ _ _ _ _ _ H1 H2 H3 H4).
  - simpl. apply lookup_insert_eq.
Defined.

(** ** What a step leaves alone *)

(** X6.  A message only ever touches the session registered under the
    address of its own connection: every other entry of the registry is the
    same after the step.  A [NewMessage] moreover neither adds nor removes
    a session, and leaves the connection and the name of the sender's
    session as they were. *)
Theorem step_touches_only_its_own_address cfg env h msg h' effs :
  server_step cfg env h msg = Some (h', effs) →
  (∀ k, k ≠ key msg → clients h' !! k = clients h !! k) ∧
  (Message.Type_ msg = NewMessage →
   dom (clients h') = dom (clients h) ∧
   ∀ s', clients h' !! key msg = Some s' →
     ∃ s, clients h !! key msg = Some s ∧
          Client.Conn s' = Client.Conn s ∧ Client.Name s' = Client.Name s).
Proof.
  intros Hstep.
  destruct (decide (Message.Type_ msg = ClientConnected)) as [Hc|Hc];
    [|destruct (decide (Message.Type_ msg = ClientDisconnected)) as [Hd|Hd];
      [|destruct (decide (Message.Type_ msg = NewMessage)) as [Hm|Hm]]].
  - split; [|rewrite Hc; discriminate].
    rewrite (step_connected _ _ _ _ Hc) in Hstep.
    unfold on_connected, key in *. cbv zeta in Hstep.
    intros k Hne.
    destruct (bannedMfs h !! _) as [bannedAt|]; [destruct (Seconds_ge _ _)|].
    2:{ by injection Hstep as <- _. }
    all: destruct (connected_log _ _ _); [|done]; injection Hstep as <- _;
         simpl; by rewrite lookup_insert_ne.
  - split; [|rewrite Hd; discriminate].
    rewrite (step_disconnected _ _ _ _ Hd) in Hstep.
    injection Hstep as <- _. intros k Hne. simpl.
    by rewrite lookup_delete_ne.
  - rewrite (step_message _ _ _ _ Hm) in Hstep.
    destruct (clients h !! key msg) as [author|] eqn:Hin.
    2:{ rewrite (on_message_stranger cfg env h msg Hin) in Hstep.
        injection Hstep as <- _. split; [done|]. intros _.
        split; [done|]. intros s'. by rewrite Hin. }
    assert (∃ n t, clients h' =
              <[key msg := Client.mk (Client.Name author) (Client.Conn author)
                                     t n]> (clients h)) as (n & t & Hcl).
    { destruct (Z_lt_le_dec (elapsed env author) (MessageRate * Second))
        as [Hfast|Hslow];
        [|destruct (ValidString (Message.Text msg)) eqn:Hvalid].
      1,3: assert (Hwhy : elapsed env author < MessageRate * Second ∨
                          ValidString (Message.Text msg) = false)
             by (first [by left | by right]);
           rewrite (on_message_strike cfg env h msg author Hin Hwhy) in Hstep;
           injection Hstep as Hs; eexists _, _;
           rewrite <- (strike_clients env h (key msg) (host msg) author);
           by rewrite Hs.
      destruct (payload_and_log cfg msg (key msg)) as [[payload line]|] eqn:Hpl.
      - rewrite (on_message_accept cfg env h msg author payload line
                   Hin Hslow Hvalid Hpl) in Hstep.
        cbv zeta in Hstep. injection Hstep as <- _. by eexists _, _.
      - unfold on_message in Hstep. cbv zeta in Hstep.
        fold (key msg) in Hstep. rewrite Hin in Hstep.
        fold (elapsed env author) in Hstep.
        apply Seconds_ge_true in Hslow.
        by rewrite Hslow, Hvalid, Hpl in Hstep. }
    rewrite Hcl. split; [intros k Hne; by rewrite lookup_insert_ne|].
    intros _. split; [apply dom_insert_lookup_L; eauto|].
    intros s'. rewrite lookup_insert_eq. intros [= <-]. eauto.
  - rewrite (step_other _ _ _ _ Hc Hd Hm) in Hstep.
    injection Hstep as <- _. split; [done|]. by intros ?.
Qed.

Lemma step_touches_witness :
  server_step Scenario.main_go (Scenario.env_at 2000000000) Scenario.three
              (Scenario.says Scenario.A "a" "hello")
    = Some (mkHub (<[ "10.0.0.1:5000" := Scenario.session Scenario.A 2000000000 0 ]>
                     (clients Scenario.three)) ∅,
            [Log "Client [REDACTED] sent: hello";
             Write Scenario.C "hello"; Write Scenario.B "hello"]) ∧
  clients (mkHub (<[ "10.0.0.1:5000" := Scenario.session Scenario.A 2000000000 0 ]>
                    (clients Scenario.three)) ∅) !! "10.0.0.2:5000"
    = clients Scenario.three !! "10.0.0.2:5000".
Proof.
  assert (H1 : server_step Scenario.main_go (Scenario.env_at 2000000000)
                 Scenario.three (Scenario.says Scenario.A "a" "hello")
               = Some (mkHub (<[ "10.0.0.1:5000" :=
                                 Scenario.session Scenario.A 2000000000 0 ]>
                                (clients Scenario.three)) ∅,
                       [Log "Client [REDACTED] sent: hello";
                        Write Scenario.C "hello"; Write Scenario.B "hello"]))
    by (vm_compute; reflexivity).
  split; [exact H1|].
  destruct (step_touches_only_its_own_address _ _ _ _ _ _ H1) as [Hframe _].
  apply Hframe. discriminate.
Defined.

(** X7.  In a reachable state a step closes at most one connection, and only
    one at the address of the message's own connection: the connection of a
    rejected or unregistered sender, or that of the session just banned. *)
Theorem hub_closes_only_the_sender cfg env h msg h' effs :
  reachable cfg h →
  server_step cfg env h msg = Some (h', effs) →
  (length (closes_of effs) ≤ 1)%nat ∧
  ∀ c, c ∈ closes_of effs → TCPAddr.String (Conn.RemoteAddr c) = key msg.
Proof.
  intros Hreach Hstep. pose proof (reachable_keyed cfg h Hreach) as Hk.
  assert (closes_of effs = [] ∨
          closes_of effs = [Message.Conn msg] ∨
          ∃ author, clients h !! key msg = Some author ∧
                    closes_of effs = [Client.Conn author]) as Hcases.
  { destruct (decide (Message.Type_ msg = ClientConnected)) as [Hc|Hc];
      [|destruct (decide (Message.Type_ msg = ClientDisconnected)) as [Hd|Hd];
        [|destruct (decide (Message.Type_ msg = NewMessage)) as [Hm|Hm]]].
    - rewrite (step_connected _ _ _ _ Hc) in Hstep.
      unfold on_connected in Hstep. cbv zeta in Hstep.
      destruct (bannedMfs h !! _) as [bannedAt|]; [destruct (Seconds_ge _ _)|].
      2:{ injection Hstep as _ <-. by right; left. }
      all: destruct (connected_log _ _ _); [|done]; injection Hstep as _ <-;
           by left.
    - rewrite (step_disconnected _ _ _ _ Hd) in Hstep.
      injection Hstep as _ <-. by left.
    - rewrite (step_message _ _ _ _ Hm) in Hstep.
      destruct (clients h !! key msg) as [author|] eqn:Hin.
      2:{ rewrite (on_message_stranger cfg env h msg Hin) in Hstep.
          injection Hstep as _ <-. by right; left. }
      destruct (Z_lt_le_dec (elapsed env author) (MessageRate * Second))
        as [Hfast|Hslow];
        [|destruct (ValidString (Message.Text msg)) eqn:Hvalid].
      1,3: assert (Hwhy : elapsed env author < MessageRate * Second ∨
                          ValidString (Message.Text msg) = false)
             by (first [by left | by right]);
           rewrite (on_message_strike cfg env h msg author Hin Hwhy) in Hstep;
           injection Hstep as Hs;
           replace effs with (strike env h (key msg) (host msg) author).2
             by (by rewrite Hs);
           destruct (Z_lt_le_dec StrikeLimit (struck author)) as [Hlim|Hlim];
           [destruct (strike_banned env h (key msg) (host msg) author Hlim)
              as [_ ->]; right; right; by exists author
           |destruct (strike_spared env h (key msg) (host msg) author Hlim)
              as [_ ->]; by left].
      left. unfold on_message in Hstep. cbv zeta in Hstep.
      fold (key msg) in Hstep. rewrite Hin in Hstep.
      fold (elapsed env author) in Hstep.
      apply Seconds_ge_true in Hslow. rewrite Hslow, Hvalid in Hstep.
      destruct (payload_and_log _ _ _) as [[payload line]|]; [|done].
      injection Hstep as _ <-.
      exact (bind_send_to_closes cfg env (key msg) payload _).
    - rewrite (step_other _ _ _ _ Hc Hd Hm) in Hstep.
      injection Hstep as _ <-. by left. }
  destruct Hcases as [->|[->|(author & Hin & ->)]].
  - split; [simpl; lia|]. by intros c Hc%elem_of_nil.
  - split; [simpl; lia|]. by intros c ->%list_elem_of_singleton.
  - split; [simpl; lia|]. intros c ->%list_elem_of_singleton. by apply Hk.
Qed.

Lemma hub_closes_witness :
  reachable Scenario.main_go Scenario.three ∧
  server_step Scenario.main_go (Scenario.env_at 5) Scenario.three
              (Scenario.says Lifecycle.stranger "s" "hello")
    = Some (Scenario.three, [Close Lifecycle.stranger]) ∧
  (length (closes_of [Close Lifecycle.stranger]) ≤ 1)%nat ∧
  ∀ c, c ∈ closes_of [Close Lifecycle.stranger] →
       TCPAddr.String (Conn.RemoteAddr c) = "10.0.0.4:5000".
Proof.
  assert (H2 : server_step Scenario.main_go (Scenario.env_at 5) Scenario.three
                 (Scenario.says Lifecycle.stranger "s" "hello")
               = Some (Scenario.three, [Close Lifecycle.stranger]))
    by (vm_compute; reflexivity).
  split; [exact three_reachable|]. split; [exact H2|].
  exact (hub_closes_only_the_sender _ _ _ _ _ _ three_reachable H2).
Defined.

(** ** What the log shows when [SafeMode] is on *)

Ltac no_log H :=
  repeat (apply elem_of_cons in H as [H|H]; [discriminate H|]);
  by apply elem_of_nil in H.

Lemma send_to_log cfg env a payload c line :
  SafeMode cfg = true →
  Log line ∈ send_to cfg env a payload c →
  line = "could not send data to [REDACTED]: [REDACTED]" +:+ LF.
Proof.
  unfold send_to, sensitive. intros ->.
  destruct (bool_decide _); [|by intros ?%elem_of_nil].
  intros [Hw|Hl]%elem_of_cons; [done|].
  destruct (write_err _ _ _); [|by apply elem_of_nil in Hl].
  apply list_elem_of_singleton in Hl. by simplify_eq.
Qed.

(** X8.  With [SafeMode] on, every line the hub logs has one of four fixed
    forms, in which the place of each remote address and of each error text
    is taken by [[REDACTED]]; what varies is only the text of the message
    and, in legacy.go, the name it carries. *)
Theorem log_lines_are_redacted cfg env h msg h' effs line :
  SafeMode cfg = true →
  server_step cfg env h msg = Some (h', effs) →
  Log line ∈ effs →
  line ∈ redacted_log_lines cfg msg.
Proof.
  intros Hsafe Hstep Hlog. unfold redacted_log_lines.
  destruct (decide (Message.Type_ msg = ClientConnected)) as [Hc|Hc];
    [|destruct (decide (Message.Type_ msg = ClientDisconnected)) as [Hd|Hd];
      [|destruct (decide (Message.Type_ msg = NewMessage)) as [Hm|Hm]]].
  - rewrite (step_connected _ _ _ _ Hc) in Hstep.
    unfold on_connected, connected_log, sensitive in Hstep.
    cbv zeta in Hstep. rewrite Hsafe in Hstep.
    destruct (bannedMfs h !! _) as [bannedAt|]; [destruct (Seconds_ge _ _)|].
    2:{ injection Hstep as _ <-. no_log Hlog. }
    all: destruct (variant cfg);
         [|destruct (Message.Name msg) as [n|]; [|done]];
         injection Hstep as _ <-;
         apply list_elem_of_singleton in Hlog; simplify_eq;
         set_solver.
  - rewrite (step_disconnected _ _ _ _ Hd) in Hstep.
    unfold on_disconnected, sensitive in Hstep. rewrite Hsafe in Hstep.
    injection Hstep as _ <-.
    apply list_elem_of_singleton in Hlog. simplify_eq. set_solver.
  - rewrite (step_message _ _ _ _ Hm) in Hstep.
    unfold on_message in Hstep. cbv zeta in Hstep.
    destruct (clients h !! _) as [author|].
    2:{ injection Hstep as _ <-. no_log Hlog. }
    assert (∀ r, Some (strike env h
                (TCPAddr.String (Conn.RemoteAddr (Message.Conn msg)))
                (TCPAddr.IP (Conn.RemoteAddr (Message.Conn msg))) author)
              = Some r → Log line ∉ r.2) as Hstrike.
    { intros r [= <-] Hin. unfold strike in Hin. simpl in Hin.
      destruct (_ <? _); simpl in Hin; no_log Hin. }
    destruct (Seconds_ge _ _); [destruct (ValidString _)|].
    2,3: destruct (Hstrike _ Hstep Hlog).
    unfold payload_and_log, sensitive in Hstep. rewrite Hsafe in Hstep.
    assert (∀ payload cs,
      Log line ∈ broadcast cfg env cs
        (TCPAddr.String (Conn.RemoteAddr (Message.Conn msg))) payload →
      line = "could not send data to [REDACTED]: [REDACTED]" +:+ LF) as Hb.
    { intros payload cs (c & Hsend & _)%list_elem_of_bind.
      exact (send_to_log cfg env _ payload c line Hsafe Hsend). }
    destruct (variant cfg); [|destruct (Message.Name msg) as [n|]; [|done]];
      injection Hstep as _ <-;
      apply elem_of_cons in Hlog as [Hlog|Hlog%Hb];
      simplify_eq; set_solver.
  - rewrite (step_other _ _ _ _ Hc Hd Hm) in Hstep.
    injection Hstep as _ <-. no_log Hlog.
Qed.

Lemma log_lines_witness :
  SafeMode Scenario.main_go = true ∧
  server_step Scenario.main_go (Scenario.env_failing 2000000000) Scenario.three
              (Scenario.says Scenario.A "a" "hello")
    = Some (mkHub (<[ "10.0.0.1:5000" := Scenario.session Scenario.A 2000000000 0 ]>
                     (clients Scenario.three)) ∅,
            [Log "Client [REDACTED] sent: hello";
             Write Scenario.C "hello";
             Log ("could not send data to [REDACTED]: [REDACTED]" +:+ LF);
             Write Scenario.B "hello";
             Log ("could not send data to [REDACTED]: [REDACTED]" +:+ LF)]) ∧
  "Client [REDACTED] sent: hello" ∈
    redacted_log_lines Scenario.main_go (Scenario.says Scenario.A "a" "hello").
Proof.
  assert (H2 : server_step Scenario.main_go (Scenario.env_failing 2000000000)
                 Scenario.three (Scenario.says Scenario.A "a" "hello")
    = Some (mkHub (<[ "10.0.0.1:5000" := Scenario.session Scenario.A 2000000000 0 ]>
                     (clients Scenario.three)) ∅,
            [Log "Client [REDACTED] sent: hello";
             Write Scenario.C "hello";
             Log ("could not send data to [REDACTED]: [REDACTED]" +:+ LF);
             Write Scenario.B "hello";
             Log ("could not send data to [REDACTED]: [REDACTED]" +:+ LF)]))
    by (vm_compute; reflexivity).
  split; [reflexivity|]. split; [exact H2|].
  apply (log_lines_are_redacted Scenario.main_go _ _ _ _ _ _ eq_refl H2).
  apply list_elem_of_here.
Defined.

(** ** The registry and the connections *)

(** X9.  In every state the hub can reach, each session is registered under
    the address of the connection it wraps. *)
Theorem sessions_are_registered_under_their_address cfg h k session :
  reachable cfg h →
  clients h !! k = Some session →
  TCPAddr.String (Conn.RemoteAddr (Client.Conn session)) = k.
Proof. intros Hreach. apply (reachable_keyed cfg h Hreach). Qed.

Lemma sessions_address_witness :
  reachable Scenario.main_go Scenario.three ∧
  clients Scenario.three !! "10.0.0.2:5000"
    = Some (Scenario.session Scenario.B 0 0) ∧
  TCPAddr.String (Conn.RemoteAddr (Client.Conn (Scenario.session Scenario.B 0 0)))
    = "10.0.0.2:5000".
Proof.
  assert (H2 : clients Scenario.three !! "10.0.0.2:5000"
               = Some (Scenario.session Scenario.B 0 0))
    by (vm_compute; reflexivity).
  split; [exact three_reachable|]. split; [exact H2|].
  exact (sessions_are_registered_under_their_address _ _ _ _
           three_reachable H2).
Defined.

(** ** The readers *)

(** X10.  Whatever it is given, and whatever [strings.TrimSpace] makes of
    it, [cleanName] returns a name that is not empty and is valid UTF-8. *)
Theorem cleanName_is_never_empty_and_valid TrimSpace name :
  (cleanName TrimSpace name).1 ≠ "" ∧
  ValidString (cleanName TrimSpace name).1 = true.
Proof.
  unfold cleanName. simpl.
  destruct (ValidString (TrimSpace name)) eqn:Hvalid; simpl.
  - destruct (bool_decide_reflect (TrimSpace name ≠ "")) as [Hne|_].
    + by split.
    + split; [discriminate | by vm_compute].
  - split; [discriminate | by vm_compute].
Qed.

Lemma read_fails_cons r reads :
  read_fails (r :: reads) =
  match err r with Some _ => true | None => read_fails reads end.
Proof. unfold read_fails. simpl. by destruct (err r). Qed.

Lemma client_loop_stops cfg conn name reads more :
  read_fails reads = true →
  client_loop cfg conn name (reads ++ more) = client_loop cfg conn name reads.
Proof.
  induction reads as [|r reads IH]; [done|].
  rewrite read_fails_cons. simpl. destruct (err r); [done|].
  intros Hfails. by rewrite IH.
Qed.

(** X11.  A reader ends at the first read that fails: whatever the
    connection would have delivered after it is never read, so the reader
    does and sends exactly what it would have without it. *)
Theorem reader_stops_at_the_first_error TrimSpace cfg conn reads more :
  read_fails reads = true →
  client TrimSpace cfg conn (reads ++ more) = client TrimSpace cfg conn reads.
Proof.
  unfold client. destruct (variant cfg).
  - apply client_loop_stops.
  - destruct reads as [|r reads]; [done|].
    rewrite read_fails_cons. simpl. destruct (err r); [done|].
    intros Hfails. destruct (cleanName TrimSpace (bytes r)) as [name out].
    by rewrite client_loop_stops.
Qed.

Lemma reader_stops_witness :
  read_fails (take 4 Lifecycle.visit) = true ∧
  client Lifecycle.TrimSpace Scenario.legacy_go Scenario.A Lifecycle.visit
    = client Lifecycle.TrimSpace Scenario.legacy_go Scenario.A
             (take 4 Lifecycle.visit).
Proof.
  split; [reflexivity|].
  exact (reader_stops_at_the_first_error Lifecycle.TrimSpace
           Scenario.legacy_go Scenario.A (take 4 Lifecycle.visit)
           (drop 4 Lifecycle.visit) eq_refl).
Defined.

Lemma sent_app acts1 acts2 : sent (acts1 ++ acts2) = sent acts1 ++ sent acts2.
Proof. unfold sent. apply bind_app. Qed.

Lemma client_loop_sent cfg conn name reads :
  sent (client_loop cfg conn name reads) = forwarded conn name reads.
Proof.
  unfold forwarded. induction reads as [|r reads IH]; [done|].
  rewrite read_fails_cons. simpl. destruct (err r); [done|].
  change (sent (Send ?m :: ?acts)) with (m :: sent acts).
  by rewrite IH.
Qed.

Lemma client_sent TrimSpace cfg conn reads :
  sent (client TrimSpace cfg conn reads) =
  match variant cfg with
  | MainGo => forwarded conn None reads
  | LegacyGo =>
    match reads with
    | [] => []
    | r :: reads =>
      match err r with
      | Some _ => []
      | None =>
        Message.mk (Some (cleanName TrimSpace (bytes r)).1)
                   ClientConnected conn "" ::
        forwarded conn (Some (cleanName TrimSpace (bytes r)).1) reads
      end
    end
  end.
Proof.
  unfold client. destruct (variant cfg).
  - apply client_loop_sent.
  - destruct reads as [|r reads]; [done|].
    destruct (err r); [done|].
    change (sent (Perform ?e :: ?acts)) with (sent acts).
    unfold cleanName. cbv zeta. rewrite sent_app.
    change (sent (Send ?m :: ?acts)) with (m :: sent acts).
    by rewrite client_loop_sent.
Qed.

(** X12.  What the hub hears from a reader.  In main.go: one [NewMessage]
    for each read before the first one that fails, in order and with the
    bytes of that read as its text, then one [ClientDisconnected] if a read
    failed; what a failing read returned is dropped and an empty read is
    forwarded like any other.  In legacy.go the first read is the name: if
    it fails the hub hears nothing at all, otherwise it hears
    [ClientConnected] with the cleaned name and then the same as in
    main.go, each [NewMessage] carrying that name. *)
Theorem reader_forwards_every_read_until_the_first_error
    TrimSpace cfg conn reads :
  sent (client TrimSpace cfg conn reads) =
  match variant cfg with
  | MainGo => forwarded conn None reads
  | LegacyGo =>
    match reads with
    | [] => []
    | r :: reads =>
      match err r with
      | Some _ => []
      | None =>
        Message.mk (Some (cleanName TrimSpace (bytes r)).1)
                   ClientConnected conn "" ::
        forwarded conn (Some (cleanName TrimSpace (bytes r)).1) reads
      end
    end
  end.
Proof. apply client_sent. Qed.

(** A visit seen from the hub. *)
Example visit_as_the_hub_hears_it :
  sent (client Lifecycle.TrimSpace Scenario.legacy_go Scenario.A Lifecycle.visit)
  = [Message.mk (Some "ann") ClientConnected Scenario.A "";
     Message.mk (Some "ann") NewMessage Scenario.A "hello";
     Message.mk (Some "ann") NewMessage Scenario.A "bye";
     Message.mk None ClientDisconnected Scenario.A ""].
Proof. vm_compute. reflexivity. Qed.

(** ** Readers and hub together *)

Lemma harmless_step cfg env h msg :
  harmless cfg msg → is_Some (server_step cfg env h msg).
Proof.
  intros [Hd|Hnamed]; [|by apply server_step_total].
  rewrite (step_disconnected cfg env h msg Hd). unfold on_disconnected. eauto.
Qed.

Lemma harmless_run cfg h inputs :
  Forall (λ input, harmless cfg input.2) inputs →
  is_Some (server_from cfg h inputs).
Proof.
  intros Hall. revert h.
  induction Hall as [|[env msg] inputs Hone _ IH]; intros h; [by eexists|].
  simpl in *. destruct (harmless_step cfg env h msg Hone) as [[h1 effs1] ->].
  simpl. destruct (IH h1) as [[h2 effs2] ->]. simpl. eauto.
Qed.

Lemma forwarded_harmless cfg conn name reads msg :
  (variant cfg = LegacyGo → is_Some name) →
  msg ∈ forwarded conn name reads → harmless cfg msg.
Proof.
  intros Hname. unfold forwarded.
  intros [Hmsg|Hmsg]%elem_of_app.
  - apply list_elem_of_fmap in Hmsg as (text & -> & _). by right.
  - destruct (read_fails reads); [|by apply elem_of_nil in Hmsg].
    apply list_elem_of_singleton in Hmsg as ->. by left.
Qed.

Lemma connection_harmless TrimSpace cfg conn reads msg :
  msg ∈ sent (connection TrimSpace cfg conn reads) → harmless cfg msg.
Proof.
  unfold connection. rewrite sent_app.
  rewrite client_sent.
  destruct (variant cfg) eqn:Hv.
  - intros [Hmsg|Hmsg]%elem_of_app.
    + apply list_elem_of_singleton in Hmsg as ->.
      right. intros Hl. congruence.
    + apply (forwarded_harmless cfg conn None reads); [congruence|done].
  - intros [Hmsg|Hmsg]%elem_of_app; [by apply elem_of_nil in Hmsg|].
    destruct reads as [|r reads]; [by apply elem_of_nil in Hmsg|].
    destruct (err r); [by apply elem_of_nil in Hmsg|].
    apply elem_of_cons in Hmsg as [->|Hmsg].
    + right. intros _. simpl. eauto.
    + eapply forwarded_harmless; [|exact Hmsg]. eauto.
Qed.

(** X13.  The hub cannot trip over a nil name: fed the messages of any
    number of accepted connections, in any interleaving and whatever the
    clock, the writes and the state it starts from, it processes all of
    them.  The readers of legacy.go attach the name to every message whose
    name the hub dereferences. *)
Theorem hub_never_panics_on_reader_messages TrimSpace cfg h inputs :
  (∀ msg, msg ∈ inputs.*2 →
     ∃ conn reads, msg ∈ sent (connection TrimSpace cfg conn reads)) →
  is_Some (server_from cfg h inputs).
Proof.
  intros Hfrom. apply harmless_run. apply Forall_forall.
  intros [env msg] Hin. simpl.
  destruct (Hfrom msg) as (conn & reads & Hsent).
  - apply list_elem_of_fmap. by exists (env, msg).
  - by apply (connection_harmless TrimSpace cfg conn reads).
Qed.

Lemma hub_never_panics_witness :
  (∀ msg,
     msg ∈ (Lifecycle.ticking
              (sent (connection Lifecycle.TrimSpace Scenario.legacy_go
                                Scenario.A Lifecycle.visit))).*2 →
     ∃ conn reads,
       msg ∈ sent (connection Lifecycle.TrimSpace Scenario.legacy_go
                              conn reads)) ∧
  is_Some (server_from Scenario.legacy_go empty_hub
             (Lifecycle.ticking
                (sent (connection Lifecycle.TrimSpace Scenario.legacy_go
                                  Scenario.A Lifecycle.visit)))).
Proof.
  assert (H1 : ∀ msg,
     msg ∈ (Lifecycle.ticking
              (sent (connection Lifecycle.TrimSpace Scenario.legacy_go
                                Scenario.A Lifecycle.visit))).*2 →
     ∃ conn reads,
       msg ∈ sent (connection Lifecycle.TrimSpace Scenario.legacy_go
                              conn reads)).
  { intros msg Hmsg. exists Scenario.A, Lifecycle.visit. exact Hmsg. }
  split; [exact H1|].
  exact (hub_never_panics_on_reader_messages Lifecycle.TrimSpace
           Scenario.legacy_go empty_hub _ H1).
Defined.

(** X14.  A connection whose reader has met a failed read leaves no session
    behind: once the hub has processed the messages of that connection, the
    last of which is the reader's [ClientDisconnected], nothing is
    registered under the connection's address.  (In legacy.go the failed
    read must not be the read of the name, after which the hub is told
    nothing.) *)
Theorem failed_read_ends_the_session TrimSpace cfg conn reads h inputs :
  read_fails reads = true →
  (variant cfg = LegacyGo → ∃ r, head reads = Some r ∧ err r = None) →
  inputs.*2 = sent (connection TrimSpace cfg conn reads) →
  ∃ h' effs,
    server_from cfg h inputs = Some (h', effs) ∧
    clients h' !! TCPAddr.String (Conn.RemoteAddr conn) = None.
Proof.
  intros Hfails Hname Hinputs.
  assert (∃ front, sent (connection TrimSpace cfg conn reads) =
                   front ++ [Message.mk None ClientDisconnected conn ""])
    as [front Hshape].
  { unfold connection. rewrite sent_app.
    rewrite client_sent.
    unfold forwarded. destruct (variant cfg).
    - rewrite Hfails. eexists. by rewrite app_assoc.
    - destruct (Hname eq_refl) as (r & Hhead & Hok).
      destruct reads as [|r' reads]; [done|]. injection Hhead as ->.
      rewrite read_fails_cons in Hfails. rewrite Hok in Hfails |- *.
      rewrite Hfails. simpl. eexists (_ :: _). by rewrite <- app_comm_cons. }
  assert (Hall : Forall (λ input, harmless cfg input.2) inputs).
  { apply Forall_forall. intros [env msg] Hin. simpl.
    apply (connection_harmless TrimSpace cfg conn reads). rewrite <- Hinputs.
    apply list_elem_of_fmap. by exists (env, msg). }
  rewrite Hshape in Hinputs.
  apply fmap_app_inv in Hinputs as (before & final & Hbefore & Hfinal & ->).
  destruct final as [|[env bye] [|? ?]]; [done| |done].
  injection Hfinal as Hbye.
  apply Forall_app in Hall as [Hall _].
  rewrite server_from_app.
  destruct (harmless_run cfg h before Hall) as [[h1 effs1] ->].
  simpl. assert (Hd : Message.Type_ bye = ClientDisconnected) by by subst.
  rewrite (step_disconnected cfg env h1 bye Hd).
  unfold on_disconnected. rewrite <- Hbye. simpl.
  eexists _, _. split; [reflexivity|]. simpl. apply lookup_delete_eq.
Qed.

Lemma failed_read_witness :
  read_fails Lifecycle.visit = true ∧
  (variant Scenario.legacy_go = LegacyGo →
   ∃ r, head Lifecycle.visit = Some r ∧ err r = None) ∧
  (Lifecycle.ticking
     (sent (connection Lifecycle.TrimSpace Scenario.legacy_go
                       Scenario.A Lifecycle.visit))).*2
    = sent (connection Lifecycle.TrimSpace Scenario.legacy_go
                       Scenario.A Lifecycle.visit) ∧
  ∃ h' effs,
    server_from Scenario.legacy_go empty_hub
      (Lifecycle.ticking
         (sent (connection Lifecycle.TrimSpace Scenario.legacy_go
                           Scenario.A Lifecycle.visit)))
      = Some (h', effs) ∧
    clients h' !! "10.0.0.1:5000" = None.
Proof.
  assert (H2 : variant Scenario.legacy_go = LegacyGo →
               ∃ r, head Lifecycle.visit = Some r ∧ err r = None)
    by (intros _; eexists; split; reflexivity).
  split; [reflexivity|]. split; [exact H2|]. split; [reflexivity|].
  exact (failed_read_ends_the_session Lifecycle.TrimSpace Scenario.legacy_go
           Scenario.A Lifecycle.visit empty_hub
           (Lifecycle.ticking
              (sent (connection Lifecycle.TrimSpace Scenario.legacy_go
                                Scenario.A Lifecycle.visit)))
           eq_refl H2 eq_refl).
Defined.

(** ** What a reader does to its connection *)

Lemma performed_app acts1 acts2 :
  performed (acts1 ++ acts2) = performed acts1 ++ performed acts2.
Proof. unfold performed. apply bind_app. Qed.

Lemma client_loop_performed cfg conn name reads :
  closes_of (performed (client_loop cfg conn name reads)) =
    (if read_fails reads then [conn] else []) ∧
  writes_of (performed (client_loop cfg conn name reads)) = [].
Proof.
  induction reads as [|r reads [IHc IHw]]; [done|].
  rewrite read_fails_cons. simpl. destruct (err r); [done|].
  change (performed (Send ?m :: ?acts)) with (performed acts). by split.
Qed.

(** X15.  A reader closes its connection exactly when a read fails, and then
    once: also when the failed read is that of the name in legacy.go, after
    which the hub is told nothing.  It never writes to the connection,
    except for the one prompt for the name in legacy.go. *)
Theorem reader_closes_exactly_on_failure TrimSpace cfg conn reads :
  closes_of (performed (client TrimSpace cfg conn reads)) =
    (if read_fails reads then [conn] else []) ∧
  writes_of (performed (client TrimSpace cfg conn reads)) =
    match variant cfg with
    | MainGo => []
    | LegacyGo => [(conn, "Enter your name: ")]
    end.
Proof.
  unfold client. destruct (variant cfg).
  - apply client_loop_performed.
  - change (performed (Perform ?e :: ?acts)) with (e :: performed acts).
    change (closes_of (Write ?c ?d :: ?effs)) with (closes_of effs).
    change (writes_of (Write ?c ?d :: ?effs)) with ((c, d) :: writes_of effs).
    destruct reads as [|r reads]; [done|].
    rewrite read_fails_cons. destruct (err r); [done|].
    unfold cleanName. cbv zeta. rewrite performed_app.
    change (performed [Println ?l]) with (@nil Effect).
    change (performed (Send ?m :: ?acts)) with (performed acts).
    rewrite !app_nil_l.
    destruct (client_loop_performed cfg conn
                (Some (if ValidString (TrimSpace (bytes r)) &&
                          bool_decide (TrimSpace (bytes r) ≠ "")
                       then TrimSpace (bytes r) else "anon")) reads)
      as [-> ->].
    by split.
Qed.

(** ** Connections that were never admitted *)

(** X16.  Messages from a connection the hub has not admitted change
    nothing: while no session is registered under an address, any run of
    [NewMessage] and [ClientDisconnected] messages from that address leaves
    the registry and the ban list exactly as they were, and the hub writes
    to no connection. *)
Theorem unadmitted_connection_changes_nothing cfg h k inputs :
  clients h !! k = None →
  Forall (λ input : Env * Message.t,
            key input.2 = k ∧
            (Message.Type_ input.2 = NewMessage ∨
             Message.Type_ input.2 = ClientDisconnected)) inputs →
  ∃ effs, server_from cfg h inputs = Some (h, effs) ∧ writes_of effs = [].
Proof.
  intros Hout Hall.
  induction Hall as [|[env msg] inputs [Hkey Htype] _ (effs & Hrun & Hw)].
  - by exists [].
  - simpl in *. subst k. destruct Htype as [Hm|Hd].
    + rewrite (step_message cfg env h msg Hm).
      rewrite (on_message_stranger cfg env h msg Hout). simpl.
      rewrite Hrun. simpl. eauto.
    + rewrite (step_disconnected cfg env h msg Hd).
      unfold on_disconnected. fold (key msg). simpl.
      rewrite delete_id by done.
      replace (mkHub (clients h) (bannedMfs h)) with h by by destruct h.
      rewrite Hrun. simpl. eauto.
Qed.

Lemma unadmitted_witness :
  clients Scenario.three !! "10.0.0.4:5000" = None ∧
  Forall (λ input : Env * Message.t,
            key input.2 = "10.0.0.4:5000" ∧
            (Message.Type_ input.2 = NewMessage ∨
             Message.Type_ input.2 = ClientDisconnected))
         [(Scenario.env_at 1, Scenario.says Lifecycle.stranger "s" "hello");
          (Scenario.env_at 2, Scenario.disconnected Lifecycle.stranger)] ∧
  ∃ effs,
    server_from Scenario.main_go Scenario.three
      [(Scenario.env_at 1, Scenario.says Lifecycle.stranger "s" "hello");
       (Scenario.env_at 2, Scenario.disconnected Lifecycle.stranger)]
      = Some (Scenario.three, effs) ∧
    writes_of effs = [].
Proof.
  assert (H1 : clients Scenario.three !! "10.0.0.4:5000" = None)
    by (vm_compute; reflexivity).
  assert (H2 : Forall (λ input : Env * Message.t,
            key input.2 = "10.0.0.4:5000" ∧
            (Message.Type_ input.2 = NewMessage ∨
             Message.Type_ input.2 = ClientDisconnected))
         [(Scenario.env_at 1, Scenario.says Lifecycle.stranger "s" "hello");
          (Scenario.env_at 2, Scenario.disconnected Lifecycle.stranger)]).
  { apply Forall_cons. split; [split; [reflexivity|by left]|].
    apply Forall_cons. split; [split; [reflexivity|by right]|].
    apply Forall_nil_2. }
  do 2 (split; [assumption|]).
  exact (unadmitted_connection_changes_nothing Scenario.main_go _ _ _ H1 H2).
Defined.
